(** * sping: CORS, access-log and panic-recovery middleware, start-up and shutdown

    A shallow embedding of [main.go] (API version 0.0.2): the three
    middleware closures, the route handlers, the whitelist construction of
    [main] and its shutdown sequence.  The parts of Go's standard library
    the program calls ([net/http]'s ResponseWriter and [http.Error],
    [strings.Split], [net.SplitHostPort], [json.Encoder]) are modelled
    next to the code that uses them. *)

From Stdlib Require Import ZArith Ascii String List Bool Lia.
From stdpp Require Import base option list strings gmap fin_maps.

Local Open Scope string_scope.

(** ** Strings *)

Module Str.

(** The double quote, written by its code so that no literal has to
    escape it. *)
Definition dquote : string := String (ascii_of_nat 34) EmptyString.
Definition newline : string := String (ascii_of_nat 10) EmptyString.

(** [strings.ReplaceAll(s, " ", "")] : every space is removed. *)
Fixpoint removeSpaces (s : string) : string :=
  match s with
  | EmptyString => EmptyString
  | String c rest =>
      if Ascii.eqb c " "%char then removeSpaces rest
      else String c (removeSpaces rest)
  end.

(** [strings.Split(s, ",")] : the pieces between the commas, in order.
    The result is never empty: splitting the empty string yields one
    empty piece. *)
Fixpoint splitComma (s : string) : list string :=
  match s with
  | EmptyString => [EmptyString]
  | String c rest =>
      if Ascii.eqb c ","%char then EmptyString :: splitComma rest
      else match splitComma rest with
           | piece :: pieces => String c piece :: pieces
           | [] => [String c EmptyString]
           end
  end.

(** [strings.IndexByte] and [strings.LastIndexByte], with [None] for -1. *)
Fixpoint indexByte (s : string) (b : ascii) : option nat :=
  match s with
  | EmptyString => None
  | String c rest =>
      if Ascii.eqb c b then Some O
      else option_map S (indexByte rest b)
  end.

Fixpoint lastIndexByte (s : string) (b : ascii) : option nat :=
  match s with
  | EmptyString => None
  | String c rest =>
      match lastIndexByte rest b with
      | Some i => Some (S i)
      | None => if Ascii.eqb c b then Some O else None
      end
  end.

(** [s[i:]] and [s[i:j]] for in-range indices. *)
Definition from (i : nat) (s : string) : string :=
  substring i (String.length s - i) s.
Definition slice (i j : nat) (s : string) : string :=
  substring i (j - i) s.

(** [strings.Contains(s, sub)]. *)
Fixpoint contains (sub s : string) : bool :=
  String.prefix sub s ||
  match s with
  | EmptyString => false
  | String _ rest => contains sub rest
  end.

End Str.

(** ** net/http: headers, requests and the response writer *)

(** [http.Header] is [map[string][]string]; keys are in canonical form. *)
Abbreviation Header := (gmap string (list string)).

Module Hdr.

(** [h.Get(key)] : the first value stored under [key], or the empty
    string. *)
Definition Get (h : Header) (key : string) : string :=
  match h !! key with
  | Some (v :: _) => v
  | _ => ""
  end.

(** [h.Set(key, value)] replaces whatever was stored under [key]. *)
Definition Set_ (h : Header) (key value : string) : Header :=
  <[key := [value]]> h.

End Hdr.

Record Request := mkRequest {
  Method : string;
  Path : string;              (* r.URL.Path *)
  ReqHeader : Header;         (* r.Header *)
  RemoteAddr : string
}.

(** The response writer of one request.  [header] is the live map
    returned by [w.Header()]; [WriteHeader] freezes a copy of it into
    [sent] together with the status, and a later [WriteHeader] is
    ignored (net/http logs it as superfluous). *)
Record ResponseWriter := mkRW {
  header : Header;
  wroteHeader : bool;
  status : Z;
  sent : Header;
  body : string
}.

Definition newResponseWriter : ResponseWriter :=
  {| header := ∅; wroteHeader := false; status := 0%Z; sent := ∅; body := "" |}.

Definition StatusOK : Z := 200%Z.
Definition StatusBadRequest : Z := 400%Z.
Definition StatusNotFound : Z := 404%Z.
Definition StatusInternalServerError : Z := 500%Z.

Module RW.

Definition SetHeader (w : ResponseWriter) (key value : string) : ResponseWriter :=
  {| header := Hdr.Set_ (header w) key value;
     wroteHeader := wroteHeader w; status := status w;
     sent := sent w; body := body w |}.

Definition WriteHeader (w : ResponseWriter) (code : Z) : ResponseWriter :=
  if wroteHeader w then w
  else {| header := header w; wroteHeader := true; status := code;
          sent := header w; body := body w |}.

(** [w.Write(data)] : an implicit [WriteHeader(200)] first when no
    header has been written. *)
Definition Write (w : ResponseWriter) (data : string) : ResponseWriter :=
  let w1 := WriteHeader w StatusOK in
  {| header := header w1; wroteHeader := wroteHeader w1; status := status w1;
     sent := sent w1; body := body w1 +:+ data |}.

(** What net/http does when the handler returns without having written
    anything: the response goes out with status 200. *)
Definition finish (w : ResponseWriter) : ResponseWriter :=
  WriteHeader w StatusOK.

End RW.

(** [http.Error(w, msg, code)] *)
Definition http_Error (w : ResponseWriter) (msg : string) (code : Z) : ResponseWriter :=
  let w1 := RW.SetHeader w "Content-Type" "text/plain; charset=utf-8" in
  let w2 := RW.SetHeader w1 "X-Content-Type-Options" "nosniff" in
  let w3 := RW.WriteHeader w2 code in
  RW.Write w3 (msg +:+ Str.newline).

(** [net.SplitHostPort(hostport)] : [inl (host, port)] or [inr why]. *)
Definition noBrackets (hostport : string) (j k : nat) : option string :=
  if Str.indexByte (Str.from j hostport) "["%char is Some _
  then Some "unexpected '[' in address"
  else if Str.indexByte (Str.from k hostport) "]"%char is Some _
  then Some "unexpected ']' in address"
  else None.

Definition SplitHostPort (hostport : string) : string * string + string :=
  let missingPort := "missing port in address" in
  let tooManyColons := "too many colons in address" in
  match Str.lastIndexByte hostport ":"%char with
  | None => inr missingPort
  | Some i =>
      let finish_ (host : string) (j k : nat) :=
        match noBrackets hostport j k with
        | Some why => inr why
        | None => inl (host, Str.from (S i) hostport)
        end in
      match hostport with
      | String "["%char _ =>
          match Str.indexByte hostport "]"%char with
          | None => inr "missing ']' in address"
          | Some end_ =>
              if (S end_ =? String.length hostport)%nat then inr missingPort
              else if (S end_ =? i)%nat then
                finish_ (Str.slice 1 end_ hostport) 1%nat (S end_)
              else if Str.slice (S end_) (S (S end_)) hostport =? ":"
                   then inr tooManyColons
                   else inr missingPort
          end
      | _ =>
          let host := Str.slice 0 i hostport in
          if Str.indexByte host ":"%char is Some _ then inr tooManyColons
          else finish_ host 0%nat 0%nat
      end
  end.

(** ** The server *)

Definition PING_API_VERSION : string := "0.0.2".

Record Server := mkServer {
  Host : string;
  Port : Z;
  CORSWhitelist : gmap string bool;
  AllowedDefaultMethods : string
}.

(** What a handler can read and change while it serves one request: the
    server value its receiver points to, the response writer, the lines
    written through package [log], and the reading of the clock
    ([time.Now()] in the layout [nowRoute] asks for). *)
Record State := mkState {
  srv : Server;
  rw : ResponseWriter;
  logs : list string;
  timeNow : string
}.

Definition withRW (st : State) (w : ResponseWriter) : State :=
  {| srv := srv st; rw := w; logs := logs st; timeNow := timeNow st |}.

Definition log_Print (st : State) (line : string) : State :=
  {| srv := srv st; rw := rw st; logs := (logs st ++ [line])%list; timeNow := timeNow st |}.

(** A call of [ServeHTTP] either returns or panics with a value; the
    writes made before the panic stay. *)
Inductive Outcome :=
| Returned (st : State)
| Panicked (v : string) (st : State).

Definition Handler := Request -> State -> Outcome.

Definition stateOf (o : Outcome) : State :=
  match o with Returned st | Panicked _ st => st end.

Definition panicked (o : Outcome) : bool :=
  match o with Returned _ => false | Panicked _ _ => true end.

Definition ACAO : string := "Access-Control-Allow-Origin".
Definition ACAM : string := "Access-Control-Allow-Methods".
Definition ACAH : string := "Access-Control-Allow-Headers".
Definition ACAC : string := "Access-Control-Allow-Credentials".

(** [corsMiddleware], lines 44-52: the origin value to emit, empty for
    none. *)
Definition allowedOriginOf (server : Server) (r : Request) : string :=
  if default false (CORSWhitelist server !! "*") then "*"
  else
    let origin := Hdr.Get (ReqHeader r) "Origin" in
    match CORSWhitelist server !! origin with
    | Some _ => origin
    | None => ""
    end.

(** [corsMiddleware], lines 54-65: the headers set on the response. *)
Definition corsHeaders (server : Server) (r : Request) (w : ResponseWriter) : ResponseWriter :=
  let allowedOrigin := allowedOriginOf server r in
  if negb (allowedOrigin =? "") then
    let allowHeaders := "Content-Type" in
    let '(allowHeaders, w) :=
      if negb (allowedOrigin =? "*")
      then (allowHeaders +:+ ", Authorization", RW.SetHeader w ACAC "true")
      else (allowHeaders, w) in
    let w := RW.SetHeader w ACAO allowedOrigin in
    let w := RW.SetHeader w ACAM (AllowedDefaultMethods server) in
    RW.SetHeader w ACAH allowHeaders
  else w.

(** CORS middleware *)
Definition corsMiddleware (next : Handler) : Handler := fun r st =>
  let w := corsHeaders (srv st) r (rw st) in
  if Method r =? "OPTIONS" then
    Returned (withRW st (RW.WriteHeader w StatusOK))
  else
    next r (withRW st w).

(** [logMiddleware], lines 81-92: the client's address, or the error of
    [net.SplitHostPort]. *)
Definition clientIP (r : Request) : string + string :=
  let realIp := default [] (ReqHeader r !! "X-Real-Ip") in
  match realIp with
  | [] =>
      match SplitHostPort (RemoteAddr r) with
      | inl (ip, _) => inl ip
      | inr splitErr => inr splitErr
      end
  | ip :: _ => inl ip
  end.

(** Log access requests in proper format *)
Definition logMiddleware (next : Handler) : Handler := fun r st =>
  match next r st with
  | Panicked v st1 => Panicked v st1
  | Returned st1 =>
      match clientIP r with
      | inr _ =>
          Returned (withRW st1
            (http_Error (rw st1)
               ("Unable to parse client IP: " +:+ RemoteAddr r)
               StatusBadRequest))
      | inl ip =>
          Returned (log_Print st1 (ip +:+ " " +:+ Method r +:+ " " +:+ Path r))
      end
  end.

(** Handle panic errors to prevent server shutdown *)
Definition panicMiddleware (next : Handler) : Handler := fun r st =>
  match next r st with
  | Returned st1 => Returned st1
  | Panicked recoverErr st1 =>
      let st2 := log_Print st1 ("recovered " +:+ recoverErr) in
      Returned (withRW st2
        (http_Error (rw st2) "Internal server error" StatusInternalServerError))
  end.

(** [json.NewEncoder(w).Encode(v)] for a struct with one string field
    whose value needs no escaping: the object, then a line feed. *)
Definition jsonObject1 (key value : string) : string :=
  "{" +:+ Str.dquote +:+ key +:+ Str.dquote +:+ ":" +:+
  Str.dquote +:+ value +:+ Str.dquote +:+ "}".

Definition json_Encode (w : ResponseWriter) (key value : string) : ResponseWriter :=
  RW.Write w (jsonObject1 key value +:+ Str.newline).

Definition pingRoute : Handler := fun r st =>
  let w := RW.SetHeader (rw st) "Content-Type" "application/json" in
  Returned (withRW st (json_Encode w "status" "ok")).

Definition versionRoute : Handler := fun r st =>
  let w := RW.SetHeader (rw st) "Content-Type" "application/json" in
  Returned (withRW st (json_Encode w "version" PING_API_VERSION)).

Definition nowRoute : Handler := fun r st =>
  let w := RW.SetHeader (rw st) "Content-Type" "application/json" in
  let serverTime := timeNow st in
  Returned (withRW st (json_Encode w "server_time" serverTime)).

(** [http.ServeMux] with patterns that name one path each: the handler
    registered for the request's path, else [http.NotFound].  (The
    redirect the real mux sends for a path that is not in canonical form
    is not modelled; it too writes a response of its own.) *)
Definition ServeMux := list (string * Handler).

Definition HandleFunc (mux : ServeMux) (pattern : string) (h : Handler) : ServeMux :=
  (mux ++ [(pattern, h)])%list.

Definition http_NotFound : Handler := fun r st =>
  Returned (withRW st (http_Error (rw st) "404 page not found" StatusNotFound)).

Fixpoint muxServeHTTP (mux : ServeMux) : Handler := fun r st =>
  match mux with
  | [] => http_NotFound r st
  | (pattern, h) :: rest =>
      if pattern =? Path r then h r st else muxServeHTTP rest r st
  end.

(** [main], lines 174-182. *)
Definition serveMux : ServeMux :=
  let m := [] in
  let m := HandleFunc m "/now" nowRoute in
  let m := HandleFunc m "/ping" pingRoute in
  HandleFunc m "/version" versionRoute.

(** Set list of common middleware, from bottom to top *)
Definition chain (mux : Handler) : Handler :=
  let commonHandler := corsMiddleware mux in
  let commonHandler := logMiddleware commonHandler in
  panicMiddleware commonHandler.

Definition commonHandler : Handler := chain (muxServeHTTP serveMux).

(** net/http hands every request a fresh response writer and sends the
    response when the handler returns. *)
Definition serve (h : Handler) (server : Server) (now : string)
    (log0 : list string) (r : Request) : Outcome :=
  match h r {| srv := server; rw := newResponseWriter; logs := log0; timeNow := now |} with
  | Returned st => Returned (withRW st (RW.finish (rw st)))
  | Panicked v st => Panicked v st
  end.

(** Requests served one after the other, each with a fresh writer; server
    value and log are carried from one to the next. *)
Fixpoint serveAll (h : Handler) (server : Server) (log0 : list string)
    (rs : list (string * Request)) : list Outcome :=
  match rs with
  | [] => []
  | (now, r) :: rest =>
      let o := serve h server now log0 r in
      o :: serveAll h (srv (stateOf o)) (logs (stateOf o)) rest
  end.


(** ** The earlier revision (API version 0.0.1)

    Its CORS middleware differs from the current one in the headers it
    sets: credentials are allowed for every emitted origin, the wildcard
    included. *)
Module V001.

Definition corsMiddleware (next : Handler) : Handler := fun r st =>
  let allowedOrigin := allowedOriginOf (srv st) r in
  let w := rw st in
  let w :=
    if negb (allowedOrigin =? "") then
      let w := RW.SetHeader w ACAO allowedOrigin in
      let w := RW.SetHeader w ACAM "GET,OPTIONS" in
      let w := RW.SetHeader w ACAC "true" in
      RW.SetHeader w ACAH "Authorization, Content-Type"
    else w in
  if Method r =? "OPTIONS" then
    Returned (withRW st (RW.WriteHeader w StatusOK))
  else
    next r (withRW st w).

End V001.

(** ** [main]: flags and the whitelist (lines 132-172) *)

Record Flags := mkFlags {
  hostF : string;
  portF : Z;
  corsWhitelistF : string;
  sReadTimeoutF : Z;
  sWriteTimeoutF : Z
}.

Definition defaultFlags : Flags :=
  {| hostF := "0.0.0.0"; portF := 9001%Z; corsWhitelistF := "*";
     sReadTimeoutF := 10%Z; sWriteTimeoutF := 10%Z |}.

Definition ignoring (uri : string) : string := "Ignoring incorrect URI " +:+ uri.

Section Startup.

(** Package [net/url] is taken as given: [ParseRequestURI] returns a
    URL or fails ([None] for a non-nil error) and [URL_String] is the
    method [String] of the parsed value. *)
Context {URL : Type}.
Variable ParseRequestURI : string -> option URL.
Variable URL_String : URL -> string.

(** The loop of lines 148-159 over the remaining entries: [break] at
    the first wildcard, [continue] after a warning for an entry that
    does not parse. *)
Fixpoint corsLoop (raw : list string) (corsWhitelist : gmap string bool)
    (out : list string) : gmap string bool * list string :=
  match raw with
  | [] => (corsWhitelist, out)
  | uri :: rest =>
      if uri =? "*" then (<["*" := true]> corsWhitelist, out)
      else
        match ParseRequestURI uri with
        | None => corsLoop rest corsWhitelist (out ++ [ignoring uri])%list
        | Some valid =>
            corsLoop rest (<[URL_String valid := true]> corsWhitelist) out
        end
  end.

Definition corsWhitelistRaw (corsWhitelistF : string) : list string :=
  Str.splitComma (Str.removeSpaces corsWhitelistF).

Definition buildWhitelist (corsWhitelistF : string) : gmap string bool * list string :=
  corsLoop (corsWhitelistRaw corsWhitelistF) ∅ [].

(** The server value of lines 166-172 and the lines logged on the way. *)
Definition newServer (f : Flags) : Server * list string :=
  let '(corsWhitelist, out) := buildWhitelist (corsWhitelistF f) in
  ({| Host := hostF f; Port := portF f;
      CORSWhitelist := corsWhitelist;
      AllowedDefaultMethods := "GET,OPTIONS" |}, out).

End Startup.

(** A small reading of [net/url], enough to run the start-up code on
    plain ASCII origins: a request URI either starts with a slash or
    with a scheme and a colon, and such a URI is printed back as it was
    read.  The empty string is refused, as [url.ParseRequestURI] does
    ("empty url"). *)
Module SampleURL.

Definition isLetter (c : ascii) : bool :=
  let n := nat_of_ascii c in
  ((65 <=? n) && (n <=? 90) || (97 <=? n) && (n <=? 122))%nat.

Definition isSchemeChar (c : ascii) : bool :=
  let n := nat_of_ascii c in
  (isLetter c || (48 <=? n) && (n <=? 57)
   || Ascii.eqb c "+" || Ascii.eqb c "-" || Ascii.eqb c ".")%nat.

Fixpoint schemeRest (s : string) : bool :=
  match s with
  | EmptyString => false
  | String c rest =>
      if Ascii.eqb c ":" then true
      else isSchemeChar c && schemeRest rest
  end.

Definition hasScheme (s : string) : bool :=
  match s with
  | EmptyString => false
  | String c rest => isLetter c && schemeRest rest
  end.

Definition URL := string.

Definition ParseRequestURI (rawURL : string) : option URL :=
  if rawURL =? "" then None
  else if String.prefix "/" rawURL || hasScheme rawURL then Some rawURL
  else None.

Definition URL_String (u : URL) : string := u.

End SampleURL.

(** ** [main]: serving and shutting down (lines 184-213) *)

Module Proc.

Inductive error :=
| ErrServerClosed          (* http.ErrServerClosed *)
| DeadlineExceeded         (* context.DeadlineExceeded *)
| OtherError (msg : string).

Definition Error (e : error) : string :=
  match e with
  | ErrServerClosed => "http: Server closed"
  | DeadlineExceeded => "context deadline exceeded"
  | OtherError msg => msg
  end.

Definition isServerClosed (e : error) : bool :=
  match e with ErrServerClosed => true | _ => false end.

Definition shutdownTimeout : nat := 5.

(** [s.Shutdown(ctx)] after the listeners are closed: return [lnerr]
    as soon as no connection is active, the context's error once its
    deadline has passed, and poll again otherwise.  Time is counted in
    polls; [active t] is the number of connections still busy at poll
    [t]; [left] polls remain until the deadline.  The second component
    is the poll at which the call returns. *)
Fixpoint shutdownPoll (active : nat -> nat) (lnerr : option error)
    (left t : nat) : option error * nat :=
  if (active t =? 0)%nat then (lnerr, t)
  else match left with
       | O => (Some DeadlineExceeded, t)
       | S left' => shutdownPoll active lnerr left' (S t)
       end.

(** What the process meets while it runs. *)
Record Env := mkEnv {
  pollsPerSecond : nat;
  active : nat -> nat;
  lnerr : option error
}.

Definition Shutdown (env : Env) (timeoutSeconds : nat) : option error * nat :=
  shutdownPoll (active env) (lnerr env) (timeoutSeconds * pollsPerSecond env) 0.

(** Where the two goroutines stand: [main] waits on [ctx.Done()]
    (line 201) or is inside [s.Shutdown] (line 207); the goroutine of
    lines 194-199 is inside [s.ListenAndServe] or has left it. *)
Inductive MainPc := AwaitSignal | InShutdown.
Inductive ServePc := Listening | ServeDone.

Inductive Process :=
| Run (m : MainPc) (g : ServePc) (out : list string)
| Exit (code : Z) (out : list string).

Inductive Event :=
| Signal                          (* os.Interrupt or SIGTERM arrives *)
| ListenReturns (err : error)     (* s.ListenAndServe() returns err *)
| ShutdownReturns.                (* s.Shutdown(shutdownCtx) returns *)


Definition step (env : Env) (p : Process) (e : Event) : Process :=
  match p with
  | Exit code out => Exit code out
  | Run m g out =>
      match e, m, g with
      | Signal, AwaitSignal, _ =>
          Run InShutdown g
            (out ++ ["Shutting down server gracefully in 5 seconds..."])%list
      | Signal, InShutdown, _ => Run m g out
      | ListenReturns err, _, Listening =>
          if isServerClosed err then Run m ServeDone out
          else Exit 1 (out ++ ["Server error: " +:+ Error err])%list  (* log.Fatalf *)
      | ListenReturns _, _, ServeDone => Run m g out
      | ShutdownReturns, InShutdown, _ =>
          match fst (Shutdown env shutdownTimeout) with
          | Some err =>                                          (* os.Exit(1) *)
              Exit 1 (out ++ ["Graceful shutdown failed: " +:+ Error err])%list
          | None => Exit 0 (out ++ ["Server stopped"])%list      (* main returns *)
          end
      | ShutdownReturns, AwaitSignal, _ => Run m g out
      end
  end.



End Proc.

(** ** Vocabulary of the statements *)

(** What a client and the operator can see of an outcome. *)
Definition observe (o : Outcome) : bool * ResponseWriter * list string :=
  (panicked o, rw (stateOf o), logs (stateOf o)).

Definition noCorsHeaders (h : Header) : Prop :=
  forall k, String.prefix "Access-Control-" k = true -> h !! k = None.

Definition wildcardOnly (server : Server) : Server :=
  {| Host := Host server; Port := Port server;
     CORSWhitelist := {[ "*" := true ]};
     AllowedDefaultMethods := AllowedDefaultMethods server |}.

(** Once the status line is out, nothing a handler does changes the
    status or the headers that were sent. *)
Definition sameHead (w w' : ResponseWriter) : Prop :=
  wroteHeader w' = true /\ status w' = status w /\ sent w' = sent w.

Definition ownHeader (k : string) : Prop :=
  k = "Content-Type" \/ k = "X-Content-Type-Options".

(** [answers h r]: on a writer that has sent nothing, [h] returns from
    [r], leaves server and log alone, sends status 200 or 404, and the
    headers it sends are those it found plus Content-Type and
    X-Content-Type-Options of its own. *)
Definition answers (h : Handler) (r : Request) : Prop :=
  forall st, wroteHeader (rw st) = false ->
    exists w', h r st = Returned (withRW st w')
      /\ wroteHeader w' = true
      /\ (status w' = StatusOK \/ status w' = StatusNotFound)
      /\ forall k, ~ ownHeader k -> sent w' !! k = header (rw st) !! k.

Definition withSrv (server : Server) (st : State) : State :=
  {| srv := server; rw := rw st; logs := logs st; timeNow := timeNow st |}.

Definition mapOutcome (f : State -> State) (o : Outcome) : Outcome :=
  match o with
  | Returned st => Returned (f st)
  | Panicked v st => Panicked v (f st)
  end.

(** A handler that never reads the server value: swapping the server
    before the call or after it is the same. *)
Definition serverBlind (h : Handler) : Prop :=
  forall server r st, h r (withSrv server st) = mapOutcome (withSrv server) (h r st).

(** The entries the loop of [main] looks at: those in front of the first
    wildcard. *)
Fixpoint beforeWildcard (raw : list string) : list string :=
  match raw with
  | [] => []
  | uri :: rest => if uri =? "*" then [] else uri :: beforeWildcard rest
  end.

Section StartupVocabulary.

Context {URL : Type}.
Variable ParseRequestURI : string -> option URL.
Variable URL_String : URL -> string.

(** Printed forms of the examined entries that parse, and the
    examined entries that do not. *)
Definition accepted (raw : list string) : list string :=
  omap (fun uri => URL_String <$> ParseRequestURI uri) (beforeWildcard raw).

Definition rejected (raw : list string) : list string :=
  filter (fun uri => ParseRequestURI uri = None) (beforeWildcard raw).

End StartupVocabulary.

(** Inputs used to run the definitions. *)
Definition sampleFlags (cors : string) : Flags :=
  {| hostF := "0.0.0.0"; portF := 9001%Z; corsWhitelistF := cors;
     sReadTimeoutF := 10%Z; sWriteTimeoutF := 10%Z |}.

Definition sampleRequest (method path origin remote : string) : Request :=
  {| Method := method; Path := path;
     ReqHeader := if origin =? "" then ∅ else {[ "Origin" := [origin] ]};
     RemoteAddr := remote |}.

Definition sampleServer (wl : gmap string bool) : Server :=
  {| Host := "0.0.0.0"; Port := 9001%Z; CORSWhitelist := wl;
     AllowedDefaultMethods := "GET,OPTIONS" |}.

Abbreviation sampleNewServer :=
  (newServer SampleURL.ParseRequestURI SampleURL.URL_String).

(** Connections that go idle after three polls, and connections that
    never do. *)
Definition idleEnv : Proc.Env :=
  {| Proc.pollsPerSecond := 10;
     Proc.active := fun t => if (t <? 3)%nat then 2%nat else 0%nat;
     Proc.lnerr := None |}.


(** A route handler that starts its reply and then faults. *)
Definition faultyRoute : Handler := fun r st =>
  Panicked "boom" (withRW st (RW.Write (rw st) "partial")).

(** A route handler that faults before it writes anything. *)
Definition brokenRoute : Handler := fun r st => Panicked "boom" st.

(** ** Vocabulary of the further statements *)

(** [lacks b s]: the byte [b] does not occur in [s]. *)
Definition lacks (b : ascii) (s : string) : Prop := Str.indexByte s b = None.

(** A host or port as it stands in a plain [host:port] address: no
    colon and no bracket. *)
Definition plainPart (s : string) : Prop :=
  lacks ":" s /\ lacks "[" s /\ lacks "]" s.

(** [net.JoinHostPort] for the two shapes of address a TCP peer has. *)
Definition joinPlain (host port : string) : string :=
  host +:+ ":" +:+ port.

Definition joinBracketed (host port : string) : string :=
  "[" +:+ host +:+ "]:" +:+ port.

(** [strings.Join(pieces, ",")] *)
Fixpoint joinComma (pieces : list string) : string :=
  match pieces with
  | [] => ""
  | [piece] => piece
  | piece :: rest => piece +:+ "," +:+ joinComma rest
  end.

(** An entry as [main] sees it: spaces are gone and commas separate. *)
Definition entryLike (uri : string) : Prop := lacks " " uri /\ lacks "," uri.

(** The line of the access log. *)
Definition accessLine (ip : string) (r : Request) : string :=
  ip +:+ " " +:+ Method r +:+ " " +:+ Path r.

(** The logger of the earlier revision (lines 69-98 of its file): it
    reads the request body first and answers 400 when that fails; the
    rest is the logger of the current revision.  [readAll r] is what
    [io.ReadAll(r.Body)] returns, the bytes or the error. *)
Definition V001_logMiddleware (readAll : Request -> string + string)
    (next : Handler) : Handler := fun r st =>
  match readAll r with
  | inr _ =>
      Returned (withRW st
        (http_Error (rw st) "Unable to read body" StatusBadRequest))
  | inl _ => logMiddleware next r st
  end.

Definition V001_chain (readAll : Request -> string + string) (mux : Handler) : Handler :=
  let commonHandler := V001.corsMiddleware mux in
  let commonHandler := V001_logMiddleware readAll commonHandler in
  panicMiddleware commonHandler.

(** [net.JoinHostPort(host, port)] : a host that holds a colon goes
    between brackets. *)
Definition JoinHostPort (host port : string) : string :=
  if Str.indexByte host ":" is Some _ then joinBracketed host port
  else joinPlain host port.

Example splitComma_ex :
  Str.splitComma "https://a.example,*,x," = ["https://a.example"; "*"; "x"; ""].
Proof. reflexivity. Qed.

(** The bytes of the status object: [{], then the key and the value in
    double quotes around a colon, then [}]. *)
Example jsonObject1_ex :
  list_ascii_of_string (jsonObject1 "status" "ok") =
  List.map ascii_of_nat
    [123; 34; 115; 116; 97; 116; 117; 115; 34; 58; 34; 111; 107; 34; 125]%nat.
Proof. reflexivity. Qed.

(** With the default flags the whitelist is the wildcard alone and
    start-up logs no warning. *)
Example defaultFlags_ex :
  let '(server, out) := sampleNewServer defaultFlags in
  map_to_list (CORSWhitelist server) = [("*", true)] /\ out = [].
Proof. vm_compute. by split. Qed.

Example SplitHostPort_ex :
  SplitHostPort "127.0.0.1:5000" = inl ("127.0.0.1", "5000")
  /\ SplitHostPort "[::1]:80" = inl ("::1", "80")
  /\ SplitHostPort "bogus" = inr "missing port in address"
  /\ SplitHostPort "::1:80" = inr "too many colons in address"
  /\ SplitHostPort "[::1]" = inr "missing port in address"
  /\ SplitHostPort "[::1]x:80" = inr "missing port in address"
  /\ SplitHostPort "[a:b]:c:80" = inr "too many colons in address"
  /\ SplitHostPort "a[b:80" = inr "unexpected '[' in address"
  /\ SplitHostPort ":80" = inl ("", "80").
Proof. repeat split; reflexivity. Qed.

(** ** Facts about the response writer *)

Section Writer.

Implicit Types (w : ResponseWriter) (k v msg data : string) (code : Z).

Lemma SetHeader_header w k v k' :
  header (RW.SetHeader w k v) !! k' =
  if decide (k = k') then Some [v] else header w !! k'.
Proof. unfold RW.SetHeader, Hdr.Set_; cbn. apply lookup_insert. Qed.

Lemma WriteHeader_fresh w code :
  wroteHeader w = false ->
  RW.WriteHeader w code =
  {| header := header w; wroteHeader := true; status := code;
     sent := header w; body := body w |}.
Proof. intros H. unfold RW.WriteHeader. by rewrite H. Qed.

Lemma WriteHeader_committed w code :
  wroteHeader w = true -> RW.WriteHeader w code = w.
Proof. intros H. unfold RW.WriteHeader. by rewrite H. Qed.

Lemma sameHead_refl w : wroteHeader w = true -> sameHead w w.
Proof. by intros H. Qed.

Lemma sameHead_trans w1 w2 w3 : sameHead w1 w2 -> sameHead w2 w3 -> sameHead w1 w3.
Proof. intros (?&?&?) (?&?&?). repeat split; congruence. Qed.

Lemma SetHeader_sameHead w k v :
  wroteHeader w = true -> sameHead w (RW.SetHeader w k v).
Proof. by intros H. Qed.

Lemma Write_sameHead w data :
  wroteHeader w = true -> sameHead w (RW.Write w data).
Proof.
  intros H. unfold RW.Write. rewrite (WriteHeader_committed _ _ H).
  by repeat split.
Qed.

Lemma http_Error_sameHead w msg code :
  wroteHeader w = true -> sameHead w (http_Error w msg code).
Proof.
  intros H. unfold http_Error.
  rewrite (WriteHeader_committed (RW.SetHeader _ _ _) code) by done.
  eapply sameHead_trans; [|apply Write_sameHead; done].
  eapply sameHead_trans; apply SetHeader_sameHead; done.
Qed.

Lemma http_Error_body w msg code :
  body (http_Error w msg code) = body w +:+ msg +:+ Str.newline.
Proof.
  destruct w as [h [] c s b]; reflexivity.
Qed.

Lemma http_Error_fresh w msg code :
  wroteHeader w = false ->
  let w' := http_Error w msg code in
  wroteHeader w' = true /\ status w' = code /\
  sent w' = <["X-Content-Type-Options" := ["nosniff"]]>
              (<["Content-Type" := ["text/plain; charset=utf-8"]]> (header w)).
Proof.
  intros H. unfold http_Error, RW.Write, RW.WriteHeader; cbn. by rewrite H.
Qed.

Lemma Write_fresh w data :
  wroteHeader w = false ->
  let w' := RW.Write w data in
  wroteHeader w' = true /\ status w' = StatusOK /\ sent w' = header w
  /\ body w' = body w +:+ data.
Proof. intros H. unfold RW.Write, RW.WriteHeader. by rewrite H. Qed.

End Writer.

(** ** The CORS evaluator, case by case *)

Section Cors.

Implicit Types (server : Server) (r : Request) (w : ResponseWriter).

Lemma allowedOriginOf_wildcard server r :
  CORSWhitelist server !! "*" = Some true -> allowedOriginOf server r = "*".
Proof. intros H. unfold allowedOriginOf. by rewrite H. Qed.

Lemma corsHeaders_wildcard server r w :
  CORSWhitelist server !! "*" = Some true ->
  corsHeaders server r w =
  RW.SetHeader
    (RW.SetHeader (RW.SetHeader w ACAO "*") ACAM (AllowedDefaultMethods server))
    ACAH "Content-Type".
Proof.
  intros H. unfold corsHeaders. by rewrite (allowedOriginOf_wildcard _ _ H).
Qed.

Lemma corsHeaders_member server r w :
  CORSWhitelist server !! "*" = None ->
  let origin := Hdr.Get (ReqHeader r) "Origin" in
  origin <> "" ->
  is_Some (CORSWhitelist server !! origin) ->
  corsHeaders server r w =
  RW.SetHeader
    (RW.SetHeader
       (RW.SetHeader (RW.SetHeader w ACAC "true") ACAO origin)
       ACAM (AllowedDefaultMethods server))
    ACAH "Content-Type, Authorization".
Proof.
  intros Hw origin Hne [b Hb]. unfold corsHeaders, allowedOriginOf.
  rewrite Hw. cbn [default]. fold origin. rewrite Hb.
  assert (origin <> "*") as Hstar by (intros E; rewrite E in Hb; congruence).
  apply String.eqb_neq in Hne, Hstar. by rewrite Hne, Hstar.
Qed.

Lemma corsHeaders_nonmember server r w :
  default false (CORSWhitelist server !! "*") = false ->
  let origin := Hdr.Get (ReqHeader r) "Origin" in
  CORSWhitelist server !! origin = None \/ origin = "" ->
  corsHeaders server r w = w.
Proof.
  intros Hw origin Hor. unfold corsHeaders, allowedOriginOf.
  rewrite Hw. fold origin.
  destruct Hor as [Hnone | Hempty].
  - by rewrite Hnone.
  - rewrite Hempty. by destruct (CORSWhitelist server !! "").
Qed.

Lemma corsHeaders_wroteHeader server r w :
  wroteHeader (corsHeaders server r w) = wroteHeader w.
Proof.
  unfold corsHeaders.
  destruct (negb (allowedOriginOf server r =? "")); [|done].
  by destruct (negb (allowedOriginOf server r =? "*")).
Qed.

Lemma corsHeaders_body server r w :
  body (corsHeaders server r w) = body w.
Proof.
  unfold corsHeaders.
  destruct (negb (allowedOriginOf server r =? "")); [|done].
  by destruct (negb (allowedOriginOf server r =? "*")).
Qed.

(** The decision depends on the whitelist alone. *)
Lemma corsHeaders_ext server server' r w :
  allowedOriginOf server r = allowedOriginOf server' r ->
  AllowedDefaultMethods server = AllowedDefaultMethods server' ->
  corsHeaders server r w = corsHeaders server' r w.
Proof. intros Ha Hm. unfold corsHeaders. by rewrite Ha, Hm. Qed.

End Cors.

(** ** Handlers that answer *)

Lemma lookup_other_header (h : Header) (k0 k : string) (v : list string) :
  ownHeader k0 -> ~ ownHeader k -> <[k0 := v]> h !! k = h !! k.
Proof. intros H0 Hk. apply lookup_insert_ne. intros ->. done. Qed.

Lemma json_route_answers (key : string) (value : State -> string) r :
  answers (fun r st =>
    let w := RW.SetHeader (rw st) "Content-Type" "application/json" in
    Returned (withRW st (json_Encode w key (value st)))) r.
Proof.
  intros st Hfresh. eexists; split; [reflexivity|].
  unfold json_Encode, RW.Write, RW.WriteHeader; cbn. rewrite Hfresh; cbn.
  repeat split; [by left|].
  intros k Hk. apply lookup_other_header; [by left|done].
Qed.

Lemma pingRoute_answers r : answers pingRoute r.
Proof. apply (json_route_answers "status" (fun _ => "ok")). Qed.

Lemma versionRoute_answers r : answers versionRoute r.
Proof. apply (json_route_answers "version" (fun _ => PING_API_VERSION)). Qed.

Lemma nowRoute_answers r : answers nowRoute r.
Proof. apply (json_route_answers "server_time" timeNow). Qed.

Lemma http_NotFound_answers r : answers http_NotFound r.
Proof.
  intros st Hfresh. eexists; split; [reflexivity|].
  destruct (http_Error_fresh (rw st) "404 page not found" StatusNotFound Hfresh)
    as (Hw & Hs & Hsent).
  repeat split; [done|by right|].
  intros k Hk. rewrite Hsent.
  rewrite !lookup_other_header; [done|by left|done|by right|done].
Qed.

Lemma muxServeHTTP_answers (mux : ServeMux) r :
  Forall (fun ph => answers ph.2 r) mux -> answers (muxServeHTTP mux) r.
Proof.
  induction 1 as [|[pattern h] rest Hh _ IH]; cbn [muxServeHTTP].
  - apply http_NotFound_answers.
  - intros st Hfresh. destruct (pattern =? Path r); [by apply Hh|by apply IH].
Qed.

Lemma serveMux_answers r : answers (muxServeHTTP serveMux) r.
Proof.
  apply muxServeHTTP_answers. unfold serveMux, HandleFunc; cbn.
  repeat constructor; cbn;
    [apply nowRoute_answers|apply pingRoute_answers|apply versionRoute_answers].
Qed.

(** The first pattern that matches wins, whatever is registered later. *)
Lemma muxServeHTTP_app_ping (extra : ServeMux) r st :
  Path r = "/ping" ->
  muxServeHTTP (serveMux ++ extra)%list r st = pingRoute r st.
Proof. intros H. unfold serveMux, HandleFunc. cbn. by rewrite H. Qed.

(** ** The middleware, one layer at a time *)

Section Layers.

Variable next : Handler.

Lemma corsMiddleware_options r st :
  Method r = "OPTIONS" ->
  corsMiddleware next r st =
  Returned (withRW st (RW.WriteHeader (corsHeaders (srv st) r (rw st)) StatusOK)).
Proof. intros H. unfold corsMiddleware. by rewrite H. Qed.

Lemma corsMiddleware_other r st :
  Method r <> "OPTIONS" ->
  corsMiddleware next r st = next r (withRW st (corsHeaders (srv st) r (rw st))).
Proof.
  intros H. unfold corsMiddleware. apply String.eqb_neq in H. by rewrite H.
Qed.


(** After a reply downstream the logger changes neither the status
    nor the headers sent, and never the server. *)
Lemma logMiddleware_returned r st st1 :
  next r st = Returned st1 ->
  wroteHeader (rw st1) = true ->
  exists st2, logMiddleware next r st = Returned st2
    /\ srv st2 = srv st1 /\ sameHead (rw st1) (rw st2).
Proof.
  intros H Hw. unfold logMiddleware. rewrite H.
  destruct (clientIP r) as [ip|splitErr].
  - eexists; split; [reflexivity|]. split; [done|by apply sameHead_refl].
  - eexists; split; [reflexivity|]. split; [done|].
    by apply http_Error_sameHead.
Qed.

Lemma panicMiddleware_returned r st st1 :
  next r st = Returned st1 -> panicMiddleware next r st = Returned st1.
Proof. intros H. unfold panicMiddleware. by rewrite H. Qed.

Lemma panicMiddleware_recovers r st :
  panicked (panicMiddleware next r st) = false.
Proof. unfold panicMiddleware. by destruct (next r st). Qed.

End Layers.

(** The whole chain over a multiplexer that answers the request. *)
Lemma chain_answers (mux : Handler) r st :
  answers mux r ->
  wroteHeader (rw st) = false ->
  exists st', chain mux r st = Returned st'
    /\ srv st' = srv st
    /\ wroteHeader (rw st') = true
    /\ (status (rw st') = StatusOK \/ status (rw st') = StatusNotFound)
    /\ forall k, ~ ownHeader k ->
         sent (rw st') !! k = header (corsHeaders (srv st) r (rw st)) !! k.
Proof.
  intros Hmux Hfresh. unfold chain.
  assert (exists st1, corsMiddleware mux r st = Returned st1
            /\ srv st1 = srv st /\ wroteHeader (rw st1) = true
            /\ (status (rw st1) = StatusOK \/ status (rw st1) = StatusNotFound)
            /\ forall k, ~ ownHeader k ->
                 sent (rw st1) !! k = header (corsHeaders (srv st) r (rw st)) !! k)
    as (st1 & Hcors & Hsrv & Hw & Hst & Hsent).
  { destruct (decide (Method r = "OPTIONS")) as [Hm|Hm].
    - rewrite (corsMiddleware_options _ _ _ Hm). eexists; split; [reflexivity|].
      cbn [rw srv withRW]. rewrite WriteHeader_fresh
        by (by rewrite corsHeaders_wroteHeader).
      cbn. repeat split; first [done | by left].
    - rewrite (corsMiddleware_other _ _ _ Hm).
      destruct (Hmux (withRW st (corsHeaders (srv st) r (rw st))))
        as (w' & -> & Hw & Hst & Hsent);
        [by cbn; rewrite corsHeaders_wroteHeader|].
      eexists; split; [reflexivity|]. by cbn. }
  destruct (logMiddleware_returned _ _ _ _ Hcors Hw)
    as (st2 & Hlog & Hsrv2 & Hw2 & Hst2 & Hsent2).
  exists st2. rewrite (panicMiddleware_returned _ _ _ _ Hlog).
  split; [done|]. split; [congruence|].
  split; [done|]. split; [by rewrite Hst2|].
  intros k Hk. rewrite Hsent2. by apply Hsent.
Qed.

Lemma serve_answers (mux : Handler) (server : Server) (now : string)
    (log0 : list string) (r : Request) :
  answers mux r ->
  exists st', serve (chain mux) server now log0 r = Returned st'
    /\ srv st' = server
    /\ wroteHeader (rw st') = true
    /\ (status (rw st') = StatusOK \/ status (rw st') = StatusNotFound)
    /\ forall k, ~ ownHeader k ->
         sent (rw st') !! k = header (corsHeaders server r newResponseWriter) !! k.
Proof.
  intros Hmux. unfold serve.
  destruct (chain_answers mux r
              {| srv := server; rw := newResponseWriter; logs := log0; timeNow := now |}
              Hmux eq_refl) as (st' & -> & Hsrv & Hw & Hst & Hsent).
  exists (withRW st' (RW.finish (rw st'))).
  unfold RW.finish. rewrite (WriteHeader_committed _ _ Hw).
  split; [done|]. by destruct st'.
Qed.

Lemma serve_commonHandler (server : Server) (now : string) (log0 : list string) (r : Request) :
  exists st', serve commonHandler server now log0 r = Returned st'
    /\ srv st' = server
    /\ wroteHeader (rw st') = true
    /\ (status (rw st') = StatusOK \/ status (rw st') = StatusNotFound)
    /\ forall k, ~ ownHeader k ->
         sent (rw st') !! k = header (corsHeaders server r newResponseWriter) !! k.
Proof. apply serve_answers, serveMux_answers. Qed.

(** ** What start-up stores and what it logs *)

Section StartupFacts.

Context {URL : Type}.
Variable ParseRequestURI : string -> option URL.
Variable URL_String : URL -> string.

Abbreviation corsLoop := (corsLoop ParseRequestURI URL_String).
Abbreviation buildWhitelist := (buildWhitelist ParseRequestURI URL_String).
Abbreviation accepted := (accepted ParseRequestURI URL_String).
Abbreviation rejected := (rejected ParseRequestURI).

Lemma accepted_cons uri rest :
  accepted (uri :: rest) =
  if uri =? "*" then []
  else match ParseRequestURI uri with
       | Some valid => URL_String valid :: accepted rest
       | None => accepted rest
       end.
Proof.
  unfold accepted. cbn [beforeWildcard]. destruct (uri =? "*"); [done|].
  cbn. by destruct (ParseRequestURI uri).
Qed.

Lemma rejected_cons uri rest :
  rejected (uri :: rest) =
  if uri =? "*" then []
  else match ParseRequestURI uri with
       | Some _ => rejected rest
       | None => uri :: rejected rest
       end.
Proof.
  unfold rejected. cbn [beforeWildcard]. destruct (uri =? "*"); [done|].
  destruct (ParseRequestURI uri) eqn:Hp.
  - by rewrite filter_cons_False by congruence.
  - by rewrite filter_cons_True.
Qed.

Lemma corsLoop_lookup raw wl out k :
  (corsLoop raw wl out).1 !! k =
  if decide (k ∈ accepted raw \/ (k = "*" /\ "*" ∈ raw)) then Some true
  else wl !! k.
Proof.
  revert wl out. induction raw as [|uri rest IH]; intros wl out.
  - cbn. case_decide as H; [|done].
    destruct H as [H|[_ H]]; by apply elem_of_nil in H.
  - cbn [corsLoop]. rewrite accepted_cons.
    destruct (String.eqb_spec uri "*") as [->|Hne].
    + cbn [fst].
      destruct (decide ("*" = k)) as [<-|Hk].
      * rewrite lookup_insert_eq, decide_True; [done|].
        right. split; [done|by left].
      * rewrite lookup_insert_ne, decide_False; [done| |done].
        intros [H|[-> _]]; [by apply elem_of_nil in H|done].
    + destruct (ParseRequestURI uri) as [valid|] eqn:Hp; rewrite IH.
      * destruct (decide (URL_String valid = k)) as [<-|Hk].
        -- rewrite lookup_insert_eq.
           destruct (decide (_ ∈ accepted rest \/ _)); rewrite decide_True;
             try done; left; by left.
        -- rewrite lookup_insert_ne by done.
           apply decide_ext. rewrite !elem_of_cons. intuition congruence.
      * apply decide_ext. rewrite !elem_of_cons. intuition congruence.
Qed.

Lemma corsLoop_out raw wl out :
  (corsLoop raw wl out).2 = (out ++ (ignoring <$> rejected raw))%list.
Proof.
  revert wl out. induction raw as [|uri rest IH]; intros wl out.
  - cbn. by rewrite app_nil_r.
  - cbn [corsLoop]. rewrite rejected_cons.
    destruct (uri =? "*"); [cbn; by rewrite app_nil_r|].
    destruct (ParseRequestURI uri) as [valid|]; rewrite IH; [done|].
    cbn. by rewrite <- app_assoc.
Qed.

Lemma buildWhitelist_lookup cfg k :
  (buildWhitelist cfg).1 !! k =
  if decide (k ∈ accepted (corsWhitelistRaw cfg)
             \/ (k = "*" /\ "*" ∈ corsWhitelistRaw cfg))
  then Some true else None.
Proof. unfold buildWhitelist. by rewrite corsLoop_lookup, lookup_empty. Qed.

Lemma buildWhitelist_out cfg :
  (buildWhitelist cfg).2 = ignoring <$> rejected (corsWhitelistRaw cfg).
Proof. unfold buildWhitelist. by rewrite corsLoop_out. Qed.

Lemma buildWhitelist_true cfg k b :
  (buildWhitelist cfg).1 !! k = Some b -> b = true.
Proof. rewrite buildWhitelist_lookup. case_decide; congruence. Qed.

Lemma elem_of_accepted raw k :
  k ∈ accepted raw <->
  exists uri valid, uri ∈ beforeWildcard raw
    /\ ParseRequestURI uri = Some valid /\ URL_String valid = k.
Proof.
  unfold accepted. rewrite list_elem_of_omap. split.
  - intros (uri & Hin & Hk). destruct (ParseRequestURI uri) as [valid|] eqn:Hp; [|done].
    exists uri, valid. by simplify_eq/=.
  - intros (uri & valid & Hin & Hp & <-). exists uri. by rewrite Hp.
Qed.

Lemma beforeWildcard_no_star raw : "*" ∉ beforeWildcard raw.
Proof.
  induction raw as [|uri rest IH]; cbn; [apply not_elem_of_nil|].
  destruct (String.eqb_spec uri "*") as [->|Hne]; [apply not_elem_of_nil|].
  rewrite not_elem_of_cons. split; [congruence|done].
Qed.

Lemma beforeWildcard_sub raw uri : uri ∈ beforeWildcard raw -> uri ∈ raw.
Proof.
  induction raw as [|e rest IH]; cbn; [done|].
  destruct (e =? "*"); [by intros ?%elem_of_nil|].
  rewrite !elem_of_cons. intuition congruence.
Qed.

(** With no wildcard among the entries, all of them are examined. *)
Lemma beforeWildcard_all raw : "*" ∉ raw -> beforeWildcard raw = raw.
Proof.
  induction raw as [|e rest IH]; cbn; [done|].
  rewrite not_elem_of_cons. intros [Hne Hrest].
  destruct (String.eqb_spec e "*") as [->|_]; [done|]. by rewrite IH.
Qed.

End StartupFacts.

(** ** Start-up builds the server *)

Section NewServer.

Context {URL : Type}.
Variable ParseRequestURI : string -> option URL.
Variable URL_String : URL -> string.

Lemma newServer_whitelist f :
  CORSWhitelist (newServer ParseRequestURI URL_String f).1 =
  (buildWhitelist ParseRequestURI URL_String (corsWhitelistF f)).1.
Proof. unfold newServer. by destruct (buildWhitelist _ _ _). Qed.

Lemma newServer_out f :
  (newServer ParseRequestURI URL_String f).2 =
  (buildWhitelist ParseRequestURI URL_String (corsWhitelistF f)).2.
Proof. unfold newServer. by destruct (buildWhitelist _ _ _). Qed.

Lemma newServer_lookup f k :
  CORSWhitelist (newServer ParseRequestURI URL_String f).1 !! k =
  if decide (k ∈ accepted ParseRequestURI URL_String (corsWhitelistRaw (corsWhitelistF f))
             \/ (k = "*" /\ "*" ∈ corsWhitelistRaw (corsWhitelistF f)))
  then Some true else None.
Proof. rewrite newServer_whitelist. apply buildWhitelist_lookup. Qed.

(** Without the wildcard flag set, the key "*" is absent altogether. *)
Lemma newServer_no_wildcard f :
  CORSWhitelist (newServer ParseRequestURI URL_String f).1 !! "*" <> Some true ->
  CORSWhitelist (newServer ParseRequestURI URL_String f).1 !! "*" = None.
Proof. rewrite newServer_lookup. by case_decide. Qed.

Lemma newServer_no_empty_key f :
  (forall uri valid, ParseRequestURI uri = Some valid -> URL_String valid <> "") ->
  CORSWhitelist (newServer ParseRequestURI URL_String f).1 !! "" = None.
Proof.
  intros Hprint. rewrite newServer_lookup. case_decide as H; [|done].
  destruct H as [H|[? _]]; [|done].
  apply elem_of_accepted in H as (uri & valid & _ & Hp & Hs).
  by destruct (Hprint _ _ Hp).
Qed.

End NewServer.

Lemma noCorsHeaders_sent (w w0 : ResponseWriter) :
  (forall k, ~ ownHeader k -> sent w !! k = header w0 !! k) ->
  noCorsHeaders (header w0) -> noCorsHeaders (sent w).
Proof.
  intros Hsent H0 k Hk. rewrite Hsent; [by apply H0|].
  intros [->| ->]; discriminate Hk.
Qed.

Lemma not_own_ACAO : ~ ownHeader ACAO.
Proof. by intros [?|?]. Qed.
Lemma not_own_ACAC : ~ ownHeader ACAC.
Proof. by intros [?|?]. Qed.
Lemma not_own_ACAH : ~ ownHeader ACAH.
Proof. by intros [?|?]. Qed.
Lemma not_own_ACAM : ~ ownHeader ACAM.
Proof. by intros [?|?]. Qed.

Create HintDb headers.
#[export] Hint Resolve not_own_ACAO not_own_ACAC not_own_ACAH not_own_ACAM : headers.

(** ** Handlers that do not read the server *)

Ltac unfold_state :=
  cbn [mapOutcome withSrv withRW log_Print srv rw logs timeNow stateOf panicked].

Lemma pingRoute_blind : serverBlind pingRoute.
Proof. by intros server r st. Qed.
Lemma versionRoute_blind : serverBlind versionRoute.
Proof. by intros server r st. Qed.
Lemma nowRoute_blind : serverBlind nowRoute.
Proof. by intros server r st. Qed.
Lemma http_NotFound_blind : serverBlind http_NotFound.
Proof. by intros server r st. Qed.

Lemma muxServeHTTP_blind (mux : ServeMux) :
  Forall (fun ph => serverBlind ph.2) mux -> serverBlind (muxServeHTTP mux).
Proof.
  induction 1 as [|[pattern h] rest Hh _ IH]; intros server r st; cbn [muxServeHTTP].
  - apply http_NotFound_blind.
  - destruct (pattern =? Path r); [apply Hh|apply IH].
Qed.

Lemma serveMux_blind : serverBlind (muxServeHTTP serveMux).
Proof.
  apply muxServeHTTP_blind. unfold serveMux, HandleFunc; cbn [app].
  constructor; [apply nowRoute_blind|].
  constructor; [apply pingRoute_blind|].
  constructor; [apply versionRoute_blind|constructor].
Qed.

Lemma logMiddleware_blind (next : Handler) :
  serverBlind next -> serverBlind (logMiddleware next).
Proof.
  intros Hnext server r st. unfold logMiddleware. rewrite Hnext.
  destruct (next r st) as [st1|v st1]; unfold_state; [|done].
  destruct (clientIP r) as [ip|splitErr]; reflexivity.
Qed.

Lemma panicMiddleware_blind (next : Handler) :
  serverBlind next -> serverBlind (panicMiddleware next).
Proof.
  intros Hnext server r st. unfold panicMiddleware. rewrite Hnext.
  destruct (next r st) as [st1|v st1]; reflexivity.
Qed.

(** The CORS layer reads the server, and only through [corsHeaders]. *)
Lemma corsMiddleware_agree (next : Handler) (s1 s2 : Server) r st :
  serverBlind next ->
  (forall w, corsHeaders s1 r w = corsHeaders s2 r w) ->
  corsMiddleware next r (withSrv s1 st) =
  mapOutcome (withSrv s1) (corsMiddleware next r (withSrv s2 st)).
Proof.
  intros Hnext Hcors. unfold corsMiddleware. unfold_state. rewrite Hcors.
  destruct (Method r =? "OPTIONS"); [done|].
  rewrite <- Hnext. reflexivity.
Qed.

Lemma observe_mapOutcome_withSrv server o :
  observe (mapOutcome (withSrv server) o) = observe o.
Proof. by destruct o. Qed.

Lemma serve_agree (s1 s2 : Server) (now : string) (log0 : list string) (r : Request) :
  (forall w, corsHeaders s1 r w = corsHeaders s2 r w) ->
  observe (serve commonHandler s1 now log0 r) =
  observe (serve commonHandler s2 now log0 r).
Proof.
  intros Hcors.
  set (st := {| srv := s2; rw := newResponseWriter; logs := log0; timeNow := now |}).
  assert (commonHandler r (withSrv s1 st) =
          mapOutcome (withSrv s1) (commonHandler r st)) as H.
  { unfold commonHandler, chain, panicMiddleware, logMiddleware.
    rewrite (corsMiddleware_agree _ s1 s2 r st serveMux_blind Hcors).
    change (withSrv s2 st) with st.
    destruct (corsMiddleware (muxServeHTTP serveMux) r st) as [st1|v st1];
      unfold_state; [|done].
    destruct (clientIP r) as [ip|splitErr]; reflexivity. }
  unfold serve. change (mkState s1 newResponseWriter log0 now) with (withSrv s1 st).
  fold st. rewrite H.
  by destruct (commonHandler r st).
Qed.

(** ** The logger *)

Section Logger.

Variable next : Handler.

(** Downstream runs first, on the state the logger was given; the log
    line comes after everything downstream did. *)
Lemma logMiddleware_logs_after r st st1 ip :
  next r st = Returned st1 ->
  clientIP r = inl ip ->
  logMiddleware next r st =
  Returned (log_Print st1 (ip +:+ " " +:+ Method r +:+ " " +:+ Path r)).
Proof. intros H Hip. unfold logMiddleware. by rewrite H, Hip. Qed.

Lemma logMiddleware_bad_address r st st1 splitErr :
  next r st = Returned st1 ->
  clientIP r = inr splitErr ->
  logMiddleware next r st =
  Returned (withRW st1 (http_Error (rw st1)
              ("Unable to parse client IP: " +:+ RemoteAddr r) StatusBadRequest)).
Proof. intros H Hip. unfold logMiddleware. by rewrite H, Hip. Qed.

End Logger.

Lemma clientIP_real_ip r ip rest :
  ReqHeader r !! "X-Real-Ip" = Some (ip :: rest) -> clientIP r = inl ip.
Proof. intros H. unfold clientIP. by rewrite H. Qed.

Lemma clientIP_remote_addr r :
  default [] (ReqHeader r !! "X-Real-Ip") = [] ->
  clientIP r = match SplitHostPort (RemoteAddr r) with
               | inl (ip, _) => inl ip
               | inr splitErr => inr splitErr
               end.
Proof. intros H. unfold clientIP. by rewrite H. Qed.

(** ** GET /ping through the whole chain *)

Lemma chain_ping (extra : ServeMux) r st :
  Path r = "/ping" ->
  Method r <> "OPTIONS" ->
  wroteHeader (rw st) = false ->
  exists st', chain (muxServeHTTP (serveMux ++ extra)%list) r st = Returned st'
    /\ status (rw st') = StatusOK
    /\ wroteHeader (rw st') = true
    /\ sent (rw st') !! "Content-Type" = Some ["application/json"]
    /\ (forall ip, clientIP r = inl ip ->
          body (rw st') = body (rw st) +:+ jsonObject1 "status" "ok" +:+ Str.newline).
Proof.
  intros Hpath Hmeth Hfresh. unfold chain, panicMiddleware, logMiddleware.
  rewrite corsMiddleware_other by done.
  rewrite muxServeHTTP_app_ping by done.
  unfold pingRoute, json_Encode. cbn [rw withRW].
  set (w := RW.SetHeader (corsHeaders (srv st) r (rw st)) "Content-Type" "application/json").
  assert (wroteHeader w = false) as Hw
    by (unfold w; cbn; by rewrite corsHeaders_wroteHeader).
  destruct (Write_fresh w (jsonObject1 "status" "ok" +:+ Str.newline) Hw)
    as (Hw' & Hst & Hsent & Hbody).
  assert (body w = body (rw st)) as Hb by (unfold w; cbn; apply corsHeaders_body).
  assert (header w !! "Content-Type" = Some ["application/json"]) as Hct
    by (unfold w; by rewrite SetHeader_header).
  destruct (clientIP r) as [ip|splitErr].
  - eexists; split; [reflexivity|]. cbn [rw log_Print withRW].
    rewrite Hst, Hsent, Hbody, Hb. by repeat split.
  - eexists; split; [reflexivity|]. cbn [rw withRW].
    destruct (http_Error_sameHead _ ("Unable to parse client IP: " +:+ RemoteAddr r)
                StatusBadRequest Hw') as (-> & -> & ->).
    rewrite Hst, Hsent. by repeat split.
Qed.

(** ** Faults *)


Lemma chain_recovers (mux : Handler) r st : panicked (chain mux r st) = false.
Proof. apply panicMiddleware_recovers. Qed.

Lemma serve_chain_returns (mux : Handler) server now log0 r :
  exists st', serve (chain mux) server now log0 r = Returned st'.
Proof.
  unfold serve.
  pose proof (chain_recovers mux r (mkState server newResponseWriter log0 now)) as H.
  destruct (chain mux r _); [by eexists|done].
Qed.

(** A reply of the logger never carries the status it asks for: by the
    time it runs, the status line is out. *)
Lemma logger_status_never_sent (server : Server) (now : string)
    (log0 : list string) (r : Request) :
  exists st', serve commonHandler server now log0 r = Returned st'
    /\ status (rw st') <> StatusBadRequest.
Proof.
  destruct (serve_commonHandler server now log0 r) as (st' & H & _ & _ & Hst & _).
  exists st'. split; [done|]. by destruct Hst as [-> | ->].
Qed.

(** ** Shutdown *)

Module ProcFacts.
Import Proc.




Lemma step_Exit env code out e : step env (Exit code out) e = Exit code out.
Proof. done. Qed.





End ProcFacts.

(** ** The sample reading of net/url *)

Lemma SampleURL_refuses_empty : SampleURL.ParseRequestURI "" = None.
Proof. reflexivity. Qed.

Lemma SampleURL_prints_nonempty uri valid :
  SampleURL.ParseRequestURI uri = Some valid -> SampleURL.URL_String valid <> "".
Proof.
  unfold SampleURL.ParseRequestURI, SampleURL.URL_String.
  destruct (String.eqb_spec uri "") as [->|Hne]; [done|].
  destruct (String.prefix "/" uri || SampleURL.hasScheme uri); [|done].
  by intros [= <-].
Qed.

(** ** The earlier revision *)

(** Under the wildcard the 0.0.1 middleware sent the credentials header
    too; the current one does not. *)
Lemma V001_wildcard_allows_credentials (next : Handler) r st :
  CORSWhitelist (srv st) !! "*" = Some true ->
  Method r = "OPTIONS" ->
  wroteHeader (rw st) = false ->
  exists st', V001.corsMiddleware next r st = Returned st'
    /\ sent (rw st') !! ACAO = Some ["*"]
    /\ sent (rw st') !! ACAC = Some ["true"].
Proof.
  intros Hstar Hm Hfresh. unfold V001.corsMiddleware.
  rewrite (allowedOriginOf_wildcard _ _ Hstar), Hm. cbn [negb String.eqb Ascii.eqb].
  eexists; split; [reflexivity|]. cbn [rw withRW].
  rewrite WriteHeader_fresh by done. cbn [sent].
  by rewrite !SetHeader_header.
Qed.

(** * The claims *)

(** ** C1 *)

(** C1.  When the whitelist holds the wildcard, every request, whatever
    its Origin header, is answered with Access-Control-Allow-Origin: *
    among the headers sent and without Access-Control-Allow-Credentials;
    the CORS layer leaves that header of the writer as it found it. *)
Theorem cors_wildcard_allows_every_origin
    (server : Server) (now : string) (log0 : list string) (r : Request) :
  CORSWhitelist server !! "*" = Some true ->
  exists st', serve commonHandler server now log0 r = Returned st'
    /\ sent (rw st') !! ACAO = Some ["*"]
    /\ sent (rw st') !! ACAC = None
    /\ forall w, header (corsHeaders server r w) !! ACAC = header w !! ACAC.
Proof.
  intros Hstar.
  destruct (serve_commonHandler server now log0 r) as (st' & Hserve & _ & _ & _ & Hsent).
  exists st'. split; [done|].
  rewrite !Hsent by auto with headers.
  rewrite !corsHeaders_wildcard by done.
  repeat split; try intros w; rewrite ?corsHeaders_wildcard by done;
    by rewrite !SetHeader_header.
Qed.

Lemma cors_wildcard_allows_every_origin_witness :
  exists st',
    serve commonHandler (sampleServer {[ "*" := true ]}) "" []
      (sampleRequest "GET" "/ping" "https://b.example" "10.0.0.1:4242")
    = Returned st'
    /\ sent (rw st') !! ACAO = Some ["*"]
    /\ sent (rw st') !! ACAC = None.
Proof.
  assert (CORSWhitelist (sampleServer {[ "*" := true ]}) !! "*" = Some true)
    as Hstar by (vm_compute; reflexivity).
  destruct (cors_wildcard_allows_every_origin
              (sampleServer {[ "*" := true ]}) "" []
              (sampleRequest "GET" "/ping" "https://b.example" "10.0.0.1:4242")
              Hstar) as (st' & H1 & H2 & H3 & _).
  by exists st'.
Defined.

(** ** C2 *)

(** C2 as stated fails: a route handler that has begun its reply when it
    faults is caught by the guard, but the response keeps the status
    already sent (200), not 500; the error text is appended to the
    body. *)
Lemma fault_after_reply_keeps_status :
  let h := muxServeHTTP (HandleFunc serveMux "/boom" faultyRoute) in
  let r := sampleRequest "GET" "/boom" "" "10.0.0.1:4242" in
  let st := mkState (sampleServer {[ "*" := true ]}) newResponseWriter [] "" in
  panicked (logMiddleware (corsMiddleware h) r st) = true
  /\ exists st', serve (chain h) (sampleServer {[ "*" := true ]}) "" [] r = Returned st'
       /\ status (rw st') = StatusOK
       /\ status (rw st') <> StatusInternalServerError
       /\ body (rw st') = "partial" +:+ "Internal server error" +:+ Str.newline.
Proof.
  cbv zeta. split; [reflexivity|].
  eexists. split; [vm_compute; reflexivity|]. by cbn.
Qed.

(** C2, amended.  The panic guard is the outermost layer of the chain.
    When whatever runs below it panics, the guard returns normally,
    logs the fault and calls [http.Error] with 500: the error text is
    appended to the body; the status is 500 if no status line had been
    written when the fault occurred, and stays what was already sent
    otherwise.  The process goes on: a later request for /ping through
    the same chain, whatever further routes are registered, is answered
    200. *)
Theorem panic_recovered_by_outermost_guard
    (next : Handler) (r : Request) (st st1 : State) (v : string) :
  next r st = Panicked v st1 ->
  commonHandler =
    panicMiddleware (logMiddleware (corsMiddleware (muxServeHTTP serveMux)))
  /\ exists st2, panicMiddleware next r st = Returned st2
      /\ srv st2 = srv st1
      /\ logs st2 = (logs st1 ++ ["recovered " +:+ v])%list
      /\ body (rw st2) =
           body (rw st1) +:+ "Internal server error" +:+ Str.newline
      /\ (wroteHeader (rw st1) = false ->
            status (rw st2) = StatusInternalServerError)
      /\ (wroteHeader (rw st1) = true -> sameHead (rw st1) (rw st2))
      /\ forall (extra : ServeMux) now' r',
           Path r' = "/ping" -> Method r' <> "OPTIONS" ->
           exists st3,
             serve (chain (muxServeHTTP (serveMux ++ extra)%list))
                   (srv st2) now' (logs st2) r' = Returned st3
             /\ status (rw st3) = StatusOK.
Proof.
  intros Hfault. split; [reflexivity|].
  unfold panicMiddleware. rewrite Hfault.
  eexists; split; [reflexivity|]. cbn [srv logs rw withRW log_Print].
  split; [done|]. split; [done|]. split; [apply http_Error_body|].
  split; [|split].
  - intros Hfresh. by apply http_Error_fresh.
  - intros Hw. by apply http_Error_sameHead.
  - intros extra now' r' Hpath Hmeth. unfold serve.
    destruct (chain_ping extra r'
                (mkState (srv st1) newResponseWriter
                   (logs st1 ++ ["recovered " +:+ v])%list now')
                Hpath Hmeth eq_refl) as (st3 & -> & Hst & Hw & _).
    eexists; split; [reflexivity|]. cbn [rw withRW].
    unfold RW.finish. by rewrite WriteHeader_committed.
Qed.

Lemma panic_recovered_by_outermost_guard_witness :
  let h := muxServeHTTP (HandleFunc serveMux "/boom" brokenRoute) in
  let r := sampleRequest "GET" "/boom" "" "10.0.0.1:4242" in
  let st := mkState (sampleServer {[ "*" := true ]}) newResponseWriter [] "" in
  exists st2,
    panicMiddleware (logMiddleware (corsMiddleware h)) r st = Returned st2
    /\ status (rw st2) = StatusInternalServerError
    /\ logs st2 = ["recovered boom"]
    /\ exists st3,
         serve (chain h) (srv st2) "" (logs st2)
           (sampleRequest "GET" "/ping" "" "10.0.0.1:4243") = Returned st3
         /\ status (rw st3) = StatusOK.
Proof.
  cbv zeta.
  destruct (panic_recovered_by_outermost_guard
              (logMiddleware (corsMiddleware
                 (muxServeHTTP (HandleFunc serveMux "/boom" brokenRoute))))
              (sampleRequest "GET" "/boom" "" "10.0.0.1:4242")
              (mkState (sampleServer {[ "*" := true ]}) newResponseWriter [] "")
              (mkState (sampleServer {[ "*" := true ]})
                 (corsHeaders (sampleServer {[ "*" := true ]})
                    (sampleRequest "GET" "/boom" "" "10.0.0.1:4242") newResponseWriter)
                 [] "")
              "boom" eq_refl)
    as (_ & st2 & Hret & _ & Hlog & _ & H500 & _ & Hnext).
  exists st2. split; [done|]. split; [by apply H500|]. split; [done|].
  apply (Hnext [("/boom", brokenRoute)]); [reflexivity|discriminate].
Defined.

(** ** C3 *)



(** ** C4 *)

(** C4.  For a whitelist built at start-up that does not hold the
    wildcard: a request whose Origin value is a key of the whitelist is
    answered with Access-Control-Allow-Origin set to that very value,
    Access-Control-Allow-Credentials: true and an
    Access-Control-Allow-Headers value that contains Authorization; a
    request whose Origin value is no key is answered without any
    Access-Control header.  Of package net/url it is used that a URI
    that parsed is never printed as the empty string. *)
Theorem cors_listed_origin_echoed_else_nothing
    {URL : Type} (ParseRequestURI : string -> option URL)
    (URL_String : URL -> string)
    (Hprint : forall uri valid,
        ParseRequestURI uri = Some valid -> URL_String valid <> "")
    (f : Flags) (now : string) (log0 : list string) (r : Request) :
  let server := (newServer ParseRequestURI URL_String f).1 in
  let origin := Hdr.Get (ReqHeader r) "Origin" in
  CORSWhitelist server !! "*" <> Some true ->
  exists st', serve commonHandler server now log0 r = Returned st'
    /\ (is_Some (CORSWhitelist server !! origin) ->
          sent (rw st') !! ACAO = Some [origin]
          /\ sent (rw st') !! ACAC = Some ["true"]
          /\ exists allowHeaders,
               sent (rw st') !! ACAH = Some [allowHeaders]
               /\ Str.contains "Authorization" allowHeaders = true)
    /\ (CORSWhitelist server !! origin = None ->
          noCorsHeaders (sent (rw st'))).
Proof.
  intros server origin Hnostar.
  apply newServer_no_wildcard in Hnostar. fold server in Hnostar.
  pose proof (newServer_no_empty_key _ _ f Hprint) as Hempty. fold server in Hempty.
  destruct (serve_commonHandler server now log0 r)
    as (st' & Hserve & _ & _ & _ & Hsent).
  exists st'. split; [done|]. split.
  - intros Hin.
    assert (origin <> "") as Hne
      by (intros E; rewrite E, Hempty in Hin; by destruct Hin).
    rewrite !Hsent by auto with headers.
    rewrite (corsHeaders_member server r _ Hnostar Hne Hin).
    rewrite !SetHeader_header. repeat split; [done..|].
    by eexists.
  - intros Hout. eapply noCorsHeaders_sent; [done|].
    rewrite corsHeaders_nonmember; [by intros k _| |by left].
    by rewrite Hnostar.
Qed.

Lemma cors_listed_origin_echoed_else_nothing_witness :
  let server := (sampleNewServer (sampleFlags "https://a.example")).1 in
  (exists st',
      serve commonHandler server "" []
        (sampleRequest "GET" "/ping" "https://a.example" "10.0.0.1:4242")
      = Returned st'
      /\ sent (rw st') !! ACAO = Some ["https://a.example"]
      /\ sent (rw st') !! ACAC = Some ["true"])
  /\ (exists st',
      serve commonHandler server "" []
        (sampleRequest "GET" "/ping" "https://b.example" "10.0.0.1:4242")
      = Returned st'
      /\ noCorsHeaders (sent (rw st'))).
Proof.
  cbv zeta.
  assert (CORSWhitelist (sampleNewServer (sampleFlags "https://a.example")).1 !! "*"
          <> Some true) as Hnostar by (vm_compute; discriminate).
  split.
  - destruct (cors_listed_origin_echoed_else_nothing
                SampleURL.ParseRequestURI SampleURL.URL_String
                SampleURL_prints_nonempty (sampleFlags "https://a.example") "" []
                (sampleRequest "GET" "/ping" "https://a.example" "10.0.0.1:4242")
                Hnostar) as (st' & Hret & Hin & _).
    exists st'. split; [done|].
    destruct Hin as (H1 & H2 & _); [vm_compute; by eexists|]. by split.
  - destruct (cors_listed_origin_echoed_else_nothing
                SampleURL.ParseRequestURI SampleURL.URL_String
                SampleURL_prints_nonempty (sampleFlags "https://a.example") "" []
                (sampleRequest "GET" "/ping" "https://b.example" "10.0.0.1:4242")
                Hnostar) as (st' & Hret & _ & Hout).
    exists st'. split; [done|]. apply Hout. vm_compute. reflexivity.
Defined.

(** ** C5 *)

(** C5, at the failing input.  GET /ping from the connection address
    "bogus" (no port) without an X-Real-Ip header: the address does not
    split, nothing is logged, and the logger's [http.Error] with 400
    comes after the route handler has replied, so the response goes out
    with status 200 and the error text after the JSON line. *)
Theorem bad_client_address_is_not_answered_400 :
  let r := sampleRequest "GET" "/ping" "" "bogus" in
  ReqHeader r !! "X-Real-Ip" = None
  /\ clientIP r = inr "missing port in address"
  /\ exists st',
       serve commonHandler (sampleServer {[ "*" := true ]}) "" [] r = Returned st'
       /\ status (rw st') = StatusOK
       /\ status (rw st') <> StatusBadRequest
       /\ body (rw st') =
            jsonObject1 "status" "ok" +:+ Str.newline +:+
            "Unable to parse client IP: bogus" +:+ Str.newline
       /\ logs st' = [].
Proof.
  cbv zeta. split; [reflexivity|]. split; [reflexivity|].
  eexists. split; [vm_compute; reflexivity|]. by cbn.
Qed.

(** ** C6 *)

(** C6.  On a writer that has sent nothing: for a request with method
    OPTIONS the CORS layer returns without calling the next handler
    (any handler in its place gives the same outcome), with status 200,
    nothing added to the body, and the headers it has just set among
    those sent; for any other method it hands the request, with those
    headers set, to the next handler. *)
Theorem cors_options_short_circuit (next : Handler) (r : Request) (st : State) :
  wroteHeader (rw st) = false ->
  let w := corsHeaders (srv st) r (rw st) in
  (Method r = "OPTIONS" ->
     corsMiddleware next r st = Returned (withRW st (RW.WriteHeader w StatusOK))
     /\ (forall next', corsMiddleware next' r st = corsMiddleware next r st)
     /\ status (RW.WriteHeader w StatusOK) = StatusOK
     /\ body (RW.WriteHeader w StatusOK) = body (rw st)
     /\ sent (RW.WriteHeader w StatusOK) = header w)
  /\ (Method r <> "OPTIONS" ->
     corsMiddleware next r st = next r (withRW st w)).
Proof.
  intros Hfresh w. split.
  - intros Hm. split; [by apply corsMiddleware_options|].
    split; [intros next'; by rewrite !corsMiddleware_options|].
    rewrite WriteHeader_fresh by (unfold w; by rewrite corsHeaders_wroteHeader).
    cbn. repeat split. apply corsHeaders_body.
  - intros Hm. by apply corsMiddleware_other.
Qed.

Lemma cors_options_short_circuit_witness :
  let r := sampleRequest "OPTIONS" "/ping" "https://a.example" "10.0.0.1:4242" in
  let st := mkState (sampleServer {[ "https://a.example" := true ]})
              newResponseWriter [] "" in
  exists st', corsMiddleware brokenRoute r st = Returned st'
    /\ status (rw st') = StatusOK
    /\ body (rw st') = ""
    /\ sent (rw st') !! ACAO = Some ["https://a.example"]
    /\ corsMiddleware pingRoute
         (sampleRequest "GET" "/ping" "https://a.example" "10.0.0.1:4242") st
       = pingRoute (sampleRequest "GET" "/ping" "https://a.example" "10.0.0.1:4242")
           (withRW st (corsHeaders (srv st)
              (sampleRequest "GET" "/ping" "https://a.example" "10.0.0.1:4242")
              (rw st))).
Proof.
  cbv zeta.
  destruct (cors_options_short_circuit brokenRoute
              (sampleRequest "OPTIONS" "/ping" "https://a.example" "10.0.0.1:4242")
              (mkState (sampleServer {[ "https://a.example" := true ]})
                 newResponseWriter [] "") eq_refl) as [Hopt _].
  destruct (Hopt eq_refl) as (Hret & _ & Hst & Hbody & Hsent).
  eexists. split; [exact Hret|].
  split; [exact Hst|]. split; [exact Hbody|].
  split; [vm_compute; reflexivity|].
  apply (cors_options_short_circuit pingRoute
           (sampleRequest "GET" "/ping" "https://a.example" "10.0.0.1:4242")
           (mkState (sampleServer {[ "https://a.example" := true ]})
              newResponseWriter [] "") eq_refl).
  discriminate.
Defined.

(** ** C7 *)

(** C7 as stated fails: with the configuration "*,nope" the entry
    "nope" does not parse, and it is dropped without a warning, because
    the loop stops at the wildcard in front of it. *)
Lemma entry_after_wildcard_dropped_silently :
  let f := sampleFlags "*,nope" in
  "nope" ∈ corsWhitelistRaw (corsWhitelistF f)
  /\ SampleURL.ParseRequestURI "nope" = None
  /\ CORSWhitelist (sampleNewServer f).1 !! "nope" = None
  /\ (sampleNewServer f).2 = []
  /\ ignoring "nope" ∉ (sampleNewServer f).2.
Proof.
  cbv zeta. split; [vm_compute; right; left|].
  split; [reflexivity|]. split; [vm_compute; reflexivity|].
  split; [reflexivity|]. vm_compute. apply not_elem_of_nil.
Qed.

(** C7, amended.  The keys of the whitelist are the wildcard, if it is
    an entry, and the printed forms of the entries in front of the first
    wildcard that parse; the warnings of start-up are exactly those for
    the entries in front of the first wildcard that do not parse, in
    order (entries behind it are not looked at).  Without the wildcard
    the origin to emit is the request's Origin value if that very string
    is a key, and none otherwise.  Serving any sequence of requests
    leaves the server value, and with it the whitelist, as start-up
    built it. *)
Theorem whitelist_fixed_at_startup
    {URL : Type} (ParseRequestURI : string -> option URL)
    (URL_String : URL -> string) (f : Flags) :
  let raw := corsWhitelistRaw (corsWhitelistF f) in
  let server := (newServer ParseRequestURI URL_String f).1 in
  let out := (newServer ParseRequestURI URL_String f).2 in
  (forall k, is_Some (CORSWhitelist server !! k) <->
      (k = "*" /\ "*" ∈ raw)
      \/ exists uri valid, uri ∈ beforeWildcard raw
           /\ ParseRequestURI uri = Some valid /\ URL_String valid = k)
  /\ out = ignoring <$> filter (fun uri => ParseRequestURI uri = None) (beforeWildcard raw)
  /\ (CORSWhitelist server !! "*" <> Some true ->
      forall r, let origin := Hdr.Get (ReqHeader r) "Origin" in
        allowedOriginOf server r =
        if decide (is_Some (CORSWhitelist server !! origin)) then origin else "")
  /\ (forall log0 rs,
        Forall (fun o => panicked o = false /\ srv (stateOf o) = server)
               (serveAll commonHandler server log0 rs)).
Proof.
  intros raw server out. split; [|split; [|split]].
  - intros k. unfold server. rewrite newServer_lookup.
    case_decide as H.
    + split; [intros _|by eexists].
      destruct H as [H|H]; [right; by apply elem_of_accepted|by left].
    + split; [by intros []|]. intros H'. destruct H.
      destruct H' as [H'|H']; [by right|left; by apply elem_of_accepted].
  - unfold out. rewrite newServer_out. apply buildWhitelist_out.
  - intros Hnostar r origin. apply newServer_no_wildcard in Hnostar.
    fold server in Hnostar. unfold allowedOriginOf. rewrite Hnostar. cbn [default].
    fold origin. case_decide as H.
    + by destruct H as [b ->].
    + destruct (CORSWhitelist server !! origin); [by destruct H|done].
  - intros log0 rs. generalize server. clear. intros server. revert log0.
    induction rs as [|[now r] rest IH]; intros log0; cbn [serveAll]; [done|].
    destruct (serve_commonHandler server now log0 r) as (st' & -> & Hsrv & _).
    cbn [stateOf]. constructor; [done|]. rewrite Hsrv. apply IH.
Qed.

Lemma whitelist_fixed_at_startup_witness :
  let f := sampleFlags "https://a.example, nope, /x" in
  (sampleNewServer f).2 = [ignoring "nope"]
  /\ (is_Some (CORSWhitelist (sampleNewServer f).1 !! "/x"))
  /\ Forall (fun o => panicked o = false /\ srv (stateOf o) = (sampleNewServer f).1)
       (serveAll commonHandler (sampleNewServer f).1 []
          [("", sampleRequest "GET" "/ping" "https://a.example" "10.0.0.1:4242");
           ("", sampleRequest "OPTIONS" "/now" "https://b.example" "bogus")]).
Proof.
  cbv zeta.
  destruct (whitelist_fixed_at_startup
              SampleURL.ParseRequestURI SampleURL.URL_String
              (sampleFlags "https://a.example, nope, /x"))
    as (Hdom & Hout & _ & Hfixed).
  split; [rewrite Hout; vm_compute; reflexivity|].
  split; [|apply Hfixed].
  apply Hdom. right. exists "/x", "/x".
  split; [vm_compute; right; right; left|]. by split.
Defined.

(** ** C8 *)

(** C8 as stated fails: the body of the reply to GET /ping is the JSON
    text followed by a line feed (sixteen bytes, not fifteen), as
    [json.Encoder.Encode] writes it. *)
Lemma ping_body_ends_with_line_feed :
  let r := sampleRequest "GET" "/ping" "" "10.0.0.1:4242" in
  exists st',
    serve commonHandler (sampleServer {[ "*" := true ]}) "" [] r = Returned st'
    /\ status (rw st') = StatusOK
    /\ body (rw st') = jsonObject1 "status" "ok" +:+ Str.newline
    /\ body (rw st') <> jsonObject1 "status" "ok"
    /\ String.length (jsonObject1 "status" "ok") = 15%nat
    /\ String.length (body (rw st')) = 16%nat.
Proof.
  cbv zeta. eexists. split; [vm_compute; reflexivity|]. by cbn.
Qed.

(** C8, amended.  Every GET request to /ping is answered with status
    200 and Content-Type application/json; when the logger can tell the
    client's address, the body is exactly the JSON text of the status
    object followed by one line feed. *)
Theorem ping_replies_status_ok_json_line
    (server : Server) (now : string) (log0 : list string) (r : Request) :
  Method r = "GET" ->
  Path r = "/ping" ->
  exists st', serve commonHandler server now log0 r = Returned st'
    /\ status (rw st') = StatusOK
    /\ sent (rw st') !! "Content-Type" = Some ["application/json"]
    /\ forall ip, clientIP r = inl ip ->
         body (rw st') = jsonObject1 "status" "ok" +:+ Str.newline.
Proof.
  intros Hm Hpath. unfold serve, commonHandler.
  assert (Method r <> "OPTIONS") as Hne by (by rewrite Hm).
  destruct (chain_ping [] r (mkState server newResponseWriter log0 now)
              Hpath Hne eq_refl) as (st' & Hch & Hst & Hw & Hct & Hbody).
  rewrite app_nil_r in Hch. rewrite Hch.
  eexists; split; [reflexivity|]. cbn [rw withRW].
  unfold RW.finish. rewrite WriteHeader_committed by done.
  repeat split; [done..|]. intros ip Hip. by rewrite (Hbody ip Hip).
Qed.

Lemma ping_replies_status_ok_json_line_witness :
  exists st',
    serve commonHandler (sampleServer {[ "*" := true ]}) "" []
      (sampleRequest "GET" "/ping" "" "10.0.0.1:4242") = Returned st'
    /\ status (rw st') = StatusOK
    /\ body (rw st') = jsonObject1 "status" "ok" +:+ Str.newline.
Proof.
  destruct (ping_replies_status_ok_json_line (sampleServer {[ "*" := true ]}) "" []
              (sampleRequest "GET" "/ping" "" "10.0.0.1:4242") eq_refl eq_refl)
    as (st' & Hret & Hst & _ & Hbody).
  exists st'. split; [done|]. split; [done|].
  by apply (Hbody "10.0.0.1").
Defined.

(** ** C9 *)

(** C9.  If the wildcard is an entry of the configured list, at any
    position: the entries in front of it that parse are stored, yet the
    origin to emit is the wildcard for every request, the CORS headers
    are those of a server whose whitelist holds the wildcard alone, and
    so are the whole response and the log lines. *)
Theorem wildcard_entry_makes_wildcard_server
    {URL : Type} (ParseRequestURI : string -> option URL)
    (URL_String : URL -> string) (f : Flags) :
  let raw := corsWhitelistRaw (corsWhitelistF f) in
  let server := (newServer ParseRequestURI URL_String f).1 in
  "*" ∈ raw ->
  (forall uri valid, uri ∈ beforeWildcard raw ->
      ParseRequestURI uri = Some valid ->
      CORSWhitelist server !! URL_String valid = Some true)
  /\ (forall r, allowedOriginOf server r = "*")
  /\ (forall r w, corsHeaders server r w = corsHeaders (wildcardOnly server) r w)
  /\ (forall now log0 r,
        observe (serve commonHandler server now log0 r) =
        observe (serve commonHandler (wildcardOnly server) now log0 r)).
Proof.
  intros raw server Hstar.
  assert (CORSWhitelist server !! "*" = Some true) as Hw.
  { unfold server. rewrite newServer_lookup, decide_True; [done|by right]. }
  assert (forall r w, corsHeaders server r w = corsHeaders (wildcardOnly server) r w)
    as Hsame.
  { intros r w. apply corsHeaders_ext; [|done].
    by rewrite !allowedOriginOf_wildcard. }
  split; [|split; [|split]].
  - intros uri valid Hin Hp. unfold server.
    rewrite newServer_lookup, decide_True; [done|].
    left. apply elem_of_accepted. by exists uri, valid.
  - intros r. by apply allowedOriginOf_wildcard.
  - done.
  - intros now log0 r. by apply serve_agree.
Qed.

Lemma wildcard_entry_makes_wildcard_server_witness :
  let f := sampleFlags "https://a.example, *, https://b.example" in
  let server := (sampleNewServer f).1 in
  CORSWhitelist server !! "https://a.example" = Some true
  /\ CORSWhitelist server !! "https://b.example" = None
  /\ forall r, allowedOriginOf server r = "*".
Proof.
  cbv zeta.
  assert ("*" ∈ corsWhitelistRaw
                  (corsWhitelistF (sampleFlags "https://a.example, *, https://b.example")))
    as Hstar by (vm_compute; right; left).
  destruct (wildcard_entry_makes_wildcard_server
              SampleURL.ParseRequestURI SampleURL.URL_String
              (sampleFlags "https://a.example, *, https://b.example") Hstar)
    as (Hstored & Hall & _).
  split; [|split; [vm_compute; reflexivity|exact Hall]].
  apply (Hstored "https://a.example" "https://a.example");
    [vm_compute; left|reflexivity].
Defined.

(** ** C10 *)

(** C10.  For a whitelist built at start-up that does not hold the
    wildcard, a request without an Origin header (the value read is the
    empty string) is answered without any Access-Control header.  The
    empty string is no key of the whitelist: every key is the printed
    form of a non-empty entry that parsed.  Of package net/url it is
    used that the empty string does not parse and that a URI that parsed
    is never printed as the empty string. *)
Theorem cors_absent_origin_gets_nothing
    {URL : Type} (ParseRequestURI : string -> option URL)
    (URL_String : URL -> string)
    (Hempty : ParseRequestURI "" = None)
    (Hprint : forall uri valid,
        ParseRequestURI uri = Some valid -> URL_String valid <> "")
    (f : Flags) (now : string) (log0 : list string) (r : Request) :
  let server := (newServer ParseRequestURI URL_String f).1 in
  CORSWhitelist server !! "*" <> Some true ->
  ReqHeader r !! "Origin" = None ->
  Hdr.Get (ReqHeader r) "Origin" = ""
  /\ CORSWhitelist server !! "" = None
  /\ (forall k, is_Some (CORSWhitelist server !! k) ->
        exists uri valid, uri ∈ corsWhitelistRaw (corsWhitelistF f)
          /\ uri <> "" /\ ParseRequestURI uri = Some valid
          /\ URL_String valid = k)
  /\ exists st', serve commonHandler server now log0 r = Returned st'
       /\ noCorsHeaders (sent (rw st')).
Proof.
  intros server Hnostar Hnone.
  assert (Hdr.Get (ReqHeader r) "Origin" = "") as Hget
    by (unfold Hdr.Get; by rewrite Hnone).
  split; [done|].
  split; [by apply newServer_no_empty_key|].
  split.
  - intros k Hk. unfold server in Hk, Hnostar.
    rewrite newServer_lookup in Hk, Hnostar.
    case_decide as H; [|by destruct Hk].
    destruct H as [H|[-> Hstar]].
    + apply elem_of_accepted in H as (uri & valid & Hin & Hp & Hs).
      exists uri, valid. split; [by eapply beforeWildcard_sub|].
      split; [|done]. intros ->. congruence.
    + rewrite decide_True in Hnostar by (by right). done.
  - destruct (serve_commonHandler server now log0 r)
      as (st' & Hserve & _ & _ & _ & Hsent).
    exists st'. split; [done|].
    eapply noCorsHeaders_sent; [done|].
    rewrite corsHeaders_nonmember; [by intros k _| |by right].
    destruct (CORSWhitelist server !! "*") as [[]|]; done.
Qed.

Lemma cors_absent_origin_gets_nothing_witness :
  let server := (sampleNewServer (sampleFlags "https://a.example,,/x")).1 in
  CORSWhitelist server !! "" = None
  /\ exists st',
       serve commonHandler server "" []
         (sampleRequest "GET" "/ping" "" "10.0.0.1:4242") = Returned st'
       /\ noCorsHeaders (sent (rw st')).
Proof.
  cbv zeta.
  assert (CORSWhitelist (sampleNewServer (sampleFlags "https://a.example,,/x")).1 !! "*"
          <> Some true) as Hnostar by (vm_compute; discriminate).
  assert (ReqHeader (sampleRequest "GET" "/ping" "" "10.0.0.1:4242") !! "Origin" = None)
    as Hnone by (vm_compute; reflexivity).
  destruct (cors_absent_origin_gets_nothing
              SampleURL.ParseRequestURI SampleURL.URL_String
              SampleURL_refuses_empty SampleURL_prints_nonempty
              (sampleFlags "https://a.example,,/x") "" []
              (sampleRequest "GET" "/ping" "" "10.0.0.1:4242") Hnostar Hnone)
    as (_ & Hempty & _ & Hserve).
  by split.
Defined.

(** * Further properties *)

(** ** The headers of the CORS step, key by key *)

Lemma corsHeaders_lookup (server : Server) (r : Request) (w : ResponseWriter) (k : string) :
  header (corsHeaders server r w) !! k =
  let a := allowedOriginOf server r in
  if a =? "" then header w !! k
  else if decide (k = ACAH)
       then Some [if a =? "*" then "Content-Type" else "Content-Type, Authorization"]
  else if decide (k = ACAM) then Some [AllowedDefaultMethods server]
  else if decide (k = ACAO) then Some [a]
  else if decide (k = ACAC)
       then (if a =? "*" then header w !! k else Some ["true"])
  else header w !! k.
Proof.
  unfold corsHeaders. cbv zeta.
  destruct (allowedOriginOf server r =? "") eqn:Ha; cbn [negb]; [done|].
  destruct (allowedOriginOf server r =? "*") eqn:Hs; cbn [negb];
    rewrite !SetHeader_header;
    repeat (case_decide; simplify_eq; try done).
Qed.

Lemma allowedOriginOf_cases (server : Server) (r : Request) :
  let origin := Hdr.Get (ReqHeader r) "Origin" in
  allowedOriginOf server r = ""
  \/ allowedOriginOf server r = "*"
  \/ (allowedOriginOf server r = origin
      /\ is_Some (CORSWhitelist server !! origin)).
Proof.
  unfold allowedOriginOf. cbv zeta.
  destruct (default false (CORSWhitelist server !! "*")); [by right; left|].
  destruct (CORSWhitelist server !! Hdr.Get (ReqHeader r) "Origin") eqn:H;
    [right; right; by split|by left].
Qed.

Lemma header_new (k : string) : header newResponseWriter !! k = None.
Proof. apply lookup_empty. Qed.

(** X1.  Whatever the whitelist map holds, a response that carries
    Access-Control-Allow-Origin: * carries no
    Access-Control-Allow-Credentials; and where the credentials header
    is sent, it is "true" next to an origin that is neither the wildcard
    nor empty. *)
Theorem credentials_never_with_wildcard_origin
    (server : Server) (now : string) (log0 : list string) (r : Request) :
  exists st', serve commonHandler server now log0 r = Returned st'
    /\ (sent (rw st') !! ACAO = Some ["*"] -> sent (rw st') !! ACAC = None)
    /\ (forall v, sent (rw st') !! ACAC = Some v ->
          v = ["true"]
          /\ exists origin, origin <> "*" /\ origin <> ""
               /\ sent (rw st') !! ACAO = Some [origin]).
Proof.
  destruct (serve_commonHandler server now log0 r) as (st' & Hserve & _ & _ & _ & Hsent).
  exists st'. split; [done|].
  rewrite !Hsent by auto with headers. rewrite !corsHeaders_lookup. cbv zeta.
  destruct (allowedOriginOf server r =? "") eqn:Ha.
  { rewrite !header_new. by split. }
  destruct (allowedOriginOf server r =? "*") eqn:Hs.
  - cbn. rewrite !header_new. by split.
  - apply String.eqb_neq in Ha, Hs. split.
    + cbn. intros [= E]. by destruct Hs.
    + intros v [= <-]. split; [done|].
      exists (allowedOriginOf server r). by repeat split.
Qed.

(** X2.  The origin a response allows is never made up: it is the
    wildcard, or it is the request's own Origin value and that value is
    a key of the whitelist. *)
Theorem allow_origin_is_wildcard_or_listed
    (server : Server) (now : string) (log0 : list string) (r : Request) :
  exists st', serve commonHandler server now log0 r = Returned st'
    /\ forall v, sent (rw st') !! ACAO = Some v ->
         v = ["*"]
         \/ (v = [Hdr.Get (ReqHeader r) "Origin"]
             /\ is_Some (CORSWhitelist server !! Hdr.Get (ReqHeader r) "Origin")).
Proof.
  destruct (serve_commonHandler server now log0 r) as (st' & Hserve & _ & _ & _ & Hsent).
  exists st'. split; [done|]. intros v.
  rewrite Hsent by auto with headers. rewrite corsHeaders_lookup. cbv zeta.
  destruct (allowedOriginOf server r =? "") eqn:Ha; [by rewrite header_new|].
  cbn. intros [= <-].
  destruct (allowedOriginOf_cases server r) as [E|[E|[E Hin]]].
  - by rewrite E in Ha.
  - left. by rewrite E.
  - right. by rewrite E.
Qed.

(** X3.  The CORS headers come together or not at all: when no origin
    is allowed the response carries no Access-Control header; otherwise
    it carries the allowed origin, the server's AllowedDefaultMethods
    and an Access-Control-Allow-Headers value that contains
    Content-Type. *)
Theorem cors_headers_all_or_none
    (server : Server) (now : string) (log0 : list string) (r : Request) :
  exists st', serve commonHandler server now log0 r = Returned st'
    /\ (allowedOriginOf server r = "" -> noCorsHeaders (sent (rw st')))
    /\ (allowedOriginOf server r <> "" ->
          sent (rw st') !! ACAO = Some [allowedOriginOf server r]
          /\ sent (rw st') !! ACAM = Some [AllowedDefaultMethods server]
          /\ exists allowHeaders, sent (rw st') !! ACAH = Some [allowHeaders]
               /\ Str.contains "Content-Type" allowHeaders = true).
Proof.
  destruct (serve_commonHandler server now log0 r) as (st' & Hserve & _ & _ & _ & Hsent).
  exists st'. split; [done|]. split.
  - intros Ha. eapply noCorsHeaders_sent; [done|].
    intros k _. rewrite corsHeaders_lookup. cbv zeta. rewrite Ha. apply header_new.
  - intros Ha. rewrite !Hsent by auto with headers. rewrite !corsHeaders_lookup.
    cbv zeta. apply String.eqb_neq in Ha. rewrite Ha. cbn.
    repeat split. eexists; split; [reflexivity|].
    by destruct (allowedOriginOf server r =? "*").
Qed.

(** X4.  For an OPTIONS request or a request to one of the three
    registered paths, the header map handed to net/http holds no key
    beyond the four CORS headers, Content-Type and
    X-Content-Type-Options. *)
Theorem response_headers_are_known
    (server : Server) (now : string) (log0 : list string) (r : Request) :
  Method r = "OPTIONS" \/ Path r ∈ ["/now"; "/ping"; "/version"] ->
  exists st', serve commonHandler server now log0 r = Returned st'
    /\ forall k, is_Some (sent (rw st') !! k) ->
         k ∈ [ACAO; ACAM; ACAH; ACAC; "Content-Type"; "X-Content-Type-Options"].
Proof.
  intros _.
  destruct (serve_commonHandler server now log0 r) as (st' & Hserve & _ & _ & _ & Hsent).
  exists st'. split; [done|]. intros k Hk.
  destruct (decide (k = "Content-Type")) as [->|H1]; [set_solver|].
  destruct (decide (k = "X-Content-Type-Options")) as [->|H2]; [set_solver|].
  rewrite Hsent in Hk by (by intros [?|?]).
  rewrite corsHeaders_lookup in Hk. cbv zeta in Hk.
  destruct (allowedOriginOf server r =? "");
    [rewrite header_new in Hk; by destruct Hk|].
  repeat (case_decide; [subst; set_solver|]).
  rewrite header_new in Hk. by destruct Hk.
Qed.

Lemma response_headers_are_known_witness :
  exists st',
    serve commonHandler (sampleServer {[ "https://a.example" := true ]}) "" []
      (sampleRequest "GET" "/version" "https://a.example" "10.0.0.1:4242")
    = Returned st'
    /\ forall k, is_Some (sent (rw st') !! k) ->
         k ∈ [ACAO; ACAM; ACAH; ACAC; "Content-Type"; "X-Content-Type-Options"].
Proof.
  apply response_headers_are_known. right. right. right. left.
Defined.

(** ** Bytes in strings *)

Section Bytes.

Implicit Types (s t : string) (c b : ascii).

Lemma append_cons c s t : String c s +:+ t = String c (s +:+ t).
Proof. reflexivity. Qed.

Lemma append_nil_l t : "" +:+ t = t.
Proof. reflexivity. Qed.

Lemma append_nil_r s : s +:+ "" = s.
Proof. induction s as [|c s IH]; [done|]. by rewrite append_cons, IH. Qed.

Lemma length_append s t : String.length (s +:+ t) = (String.length s + String.length t)%nat.
Proof.
  induction s as [|c s IH]; [done|]. rewrite append_cons. simpl. by rewrite IH.
Qed.

Lemma indexByte_append s t b :
  Str.indexByte (s +:+ t) b =
  match Str.indexByte s b with
  | Some i => Some i
  | None => option_map (fun i => (String.length s + i)%nat) (Str.indexByte t b)
  end.
Proof.
  induction s as [|c s IH].
  - rewrite append_nil_l. simpl. by destruct (Str.indexByte t b).
  - rewrite append_cons. simpl. destruct (Ascii.eqb c b); [done|]. rewrite IH.
    destruct (Str.indexByte s b); [done|]. by destruct (Str.indexByte t b).
Qed.

Lemma lastIndexByte_None s b :
  Str.lastIndexByte s b = None <-> Str.indexByte s b = None.
Proof.
  induction s as [|c s IH]; simpl; [done|].
  destruct (Ascii.eqb c b).
  - split; [|done]. by destruct (Str.lastIndexByte s b).
  - destruct (Str.lastIndexByte s b), (Str.indexByte s b); simpl; try done.
    + destruct IH as [_ IH]. by specialize (IH eq_refl).
    + destruct IH as [IH _]. by specialize (IH eq_refl).
Qed.

(** The last colon of [host:port] is the one in the middle when the
    port holds none. *)
Lemma lastIndexByte_sep s t b :
  Str.indexByte t b = None ->
  Str.lastIndexByte (s +:+ String b t) b = Some (String.length s).
Proof.
  intros Ht. apply lastIndexByte_None in Ht.
  induction s as [|c s IH].
  - rewrite append_nil_l. simpl. by rewrite Ht, Ascii.eqb_refl.
  - rewrite append_cons. simpl. by rewrite IH.
Qed.

Lemma substring_all s : substring 0 (String.length s) s = s.
Proof. induction s as [|c s IH]; simpl; [done|]. by rewrite IH. Qed.

Lemma substring_prefix s t : substring 0 (String.length s) (s +:+ t) = s.
Proof.
  induction s as [|c s IH].
  - rewrite append_nil_l. by destruct t.
  - rewrite append_cons. simpl. by rewrite IH.
Qed.

Lemma substring_skip s t n : substring (String.length s) n (s +:+ t) = substring 0 n t.
Proof.
  induction s as [|c s IH]; [done|]. rewrite append_cons. simpl. apply IH.
Qed.

Lemma from_0 s : Str.from 0 s = s.
Proof. unfold Str.from. rewrite Nat.sub_0_r. apply substring_all. Qed.

Lemma from_suffix s c t : Str.from (S (String.length s)) (s +:+ String c t) = t.
Proof.
  unfold Str.from. rewrite length_append. simpl String.length.
  replace (String.length s + S (String.length t) - S (String.length s))%nat
    with (String.length t) by lia.
  change (S (String.length s)) with (String.length (String c s)).
  induction s as [|c' s IH].
  - rewrite append_nil_l. simpl. apply substring_all.
  - rewrite append_cons. simpl. apply IH.
Qed.

Lemma slice_prefix s t : Str.slice 0 (String.length s) (s +:+ t) = s.
Proof. unfold Str.slice. rewrite Nat.sub_0_r. apply substring_prefix. Qed.

End Bytes.

(** ** net.SplitHostPort *)

Lemma lacks_append b s t : lacks b s -> lacks b t -> lacks b (s +:+ t).
Proof.
  unfold lacks. intros Hs Ht. by rewrite indexByte_append, Hs, Ht.
Qed.

Lemma lacks_cons b c s : Ascii.eqb c b = false -> lacks b s -> lacks b (String c s).
Proof. unfold lacks. intros Hc Hs. simpl. by rewrite Hc, Hs. Qed.

Lemma lacks_head b c s : lacks b (String c s) -> Ascii.eqb c b = false.
Proof. unfold lacks. simpl. by destruct (Ascii.eqb c b). Qed.

(** Without an opening bracket in front, the address is cut at its last
    colon. *)
Lemma SplitHostPort_unbracketed (c : ascii) (s : string) :
  Ascii.eqb c "[" = false ->
  SplitHostPort (String c s) =
  let hostport := String c s in
  match Str.lastIndexByte hostport ":" with
  | None => inr "missing port in address"
  | Some i =>
      let host := Str.slice 0 i hostport in
      if Str.indexByte host ":" is Some _ then inr "too many colons in address"
      else match noBrackets hostport 0 0 with
           | Some why => inr why
           | None => inl (host, Str.from (S i) hostport)
           end
  end.
Proof.
  intros Hc. unfold SplitHostPort. cbv zeta.
  destruct (Str.lastIndexByte (String c s) ":") as [i|]; [|done].
  destruct c as [[] [] [] [] [] [] [] []]; try reflexivity; discriminate Hc.
Qed.

Lemma noBrackets_none s :
  lacks "[" s -> lacks "]" s -> noBrackets s 0 0 = None.
Proof.
  unfold lacks, noBrackets. intros H1 H2. by rewrite from_0, H1, H2.
Qed.

Lemma SplitHostPort_plain (host port : string) :
  plainPart host -> plainPart port ->
  SplitHostPort (joinPlain host port) = inl (host, port).
Proof.
  intros (Hh1 & Hh2 & Hh3) (Hp1 & Hp2 & Hp3). unfold joinPlain.
  change (":" +:+ port) with (String ":" port).
  assert (exists c s, host +:+ String ":" port = String c s /\ Ascii.eqb c "[" = false)
    as (c & s & E & Hc).
  { destruct host as [|c h].
    - exists ":"%char, port. by rewrite append_nil_l.
    - exists c, (h +:+ String ":" port). split; [done|]. by eapply lacks_head. }
  rewrite E, (SplitHostPort_unbracketed c s Hc), <- E. cbv zeta.
  rewrite (lastIndexByte_sep host port ":" Hp1), slice_prefix, Hh1.
  rewrite noBrackets_none, from_suffix; [done| |].
  - apply lacks_append; [done|]. by apply lacks_cons.
  - apply lacks_append; [done|]. by apply lacks_cons.
Qed.

Lemma SplitHostPort_bracketed (s : string) :
  SplitHostPort (String "[" s) =
  let hostport := String "[" s in
  match Str.lastIndexByte hostport ":" with
  | None => inr "missing port in address"
  | Some i =>
      match Str.indexByte hostport "]" with
      | None => inr "missing ']' in address"
      | Some end_ =>
          if (S end_ =? String.length hostport)%nat then inr "missing port in address"
          else if (S end_ =? i)%nat then
            match noBrackets hostport 1 (S end_) with
            | Some why => inr why
            | None => inl (Str.slice 1 end_ hostport, Str.from (S i) hostport)
            end
          else if Str.slice (S end_) (S (S end_)) hostport =? ":"
               then inr "too many colons in address"
               else inr "missing port in address"
      end
  end.
Proof.
  unfold SplitHostPort. cbv zeta.
  by destruct (Str.lastIndexByte (String "[" s) ":").
Qed.

Lemma append_assoc (s t u : string) : (s +:+ t) +:+ u = s +:+ (t +:+ u).
Proof.
  induction s as [|c s IH]; [done|]. by rewrite !append_cons, IH.
Qed.

Lemma SplitHostPort_bracket (host port : string) :
  lacks "[" host -> lacks "]" host -> plainPart port ->
  SplitHostPort (joinBracketed host port) = inl (host, port).
Proof.
  intros Hh1 Hh2 (Hp1 & Hp2 & Hp3). unfold joinBracketed.
  set (rest := host +:+ "]:" +:+ port).
  change ("[" +:+ rest) with (String "[" rest).
  rewrite SplitHostPort_bracketed. cbv zeta.
  (* the last colon *)
  assert (String "[" rest = String "[" (host +:+ "]") +:+ String ":" port) as E1.
  { unfold rest.
    rewrite (append_cons "[" (host +:+ "]") (String ":" port)), append_assoc.
    done. }
  assert (Str.lastIndexByte (String "[" rest) ":" = Some (S (S (String.length host))))
    as ->.
  { rewrite E1, (lastIndexByte_sep _ port ":" Hp1). simpl.
    rewrite length_append. simpl. f_equal. lia. }
  (* the closing bracket *)
  assert (Str.indexByte (String "[" rest) "]" = Some (S (String.length host))) as ->.
  { simpl. unfold rest.
    change ("]:" +:+ port) with (String "]" (String ":" port)).
    rewrite indexByte_append, Hh2. simpl. by rewrite Nat.add_0_r. }
  assert (String.length (String "[" rest) = S (S (S (String.length host + String.length port)))%nat)
    as ->.
  { simpl. unfold rest. rewrite !length_append. simpl. lia. }
  replace (S (S (String.length host)) =?
           S (S (S (String.length host + String.length port))))%nat
    with false by (symmetry; apply Nat.eqb_neq; lia).
  rewrite Nat.eqb_refl.
  (* no further bracket *)
  assert (noBrackets (String "[" rest) 1 (S (S (String.length host))) = None) as ->.
  { unfold noBrackets.
    replace (Str.from 1 (String "[" rest)) with rest
      by (symmetry; apply (from_suffix "" "[" rest)).
    assert (String "[" rest = String "[" host +:+ String "]" (String ":" port)) as E2
      by (unfold rest; by rewrite (append_cons "[" host)).
    replace (Str.from (S (S (String.length host))) (String "[" rest))
      with (String ":" port)
      by (symmetry; rewrite E2; apply (from_suffix (String "[" host) "]")).
    assert (lacks "[" rest) as ->.
    { unfold rest. apply lacks_append; [done|]. by repeat apply lacks_cons. }
    assert (lacks "]" (String ":" port)) as -> by (by apply lacks_cons).
    done. }
  f_equal. f_equal.
  - unfold Str.slice. simpl. rewrite Nat.sub_0_r. unfold rest.
    apply substring_prefix.
  - rewrite E1.
    replace (S (S (S (String.length host))))
      with (S (String.length (String "[" (host +:+ "]"))))
      by (simpl; rewrite length_append; simpl; lia).
    apply (from_suffix (String "[" (host +:+ "]")) ":" port).
Qed.

Lemma chain_logs_resolved (mux : Handler) r st ip :
  answers mux r ->
  wroteHeader (rw st) = false ->
  clientIP r = inl ip ->
  exists st', chain mux r st = Returned st'
    /\ logs st' = (logs st ++ [accessLine ip r])%list.
Proof.
  intros Hmux Hfresh Hip. unfold chain, panicMiddleware, logMiddleware.
  assert (exists w1, corsMiddleware mux r st = Returned (withRW st w1)) as (w1 & ->).
  { destruct (decide (Method r = "OPTIONS")) as [Hm|Hm].
    - rewrite (corsMiddleware_options _ _ _ Hm). by eexists.
    - rewrite (corsMiddleware_other _ _ _ Hm).
      destruct (Hmux (withRW st (corsHeaders (srv st) r (rw st))))
        as (w' & -> & _); [by cbn; rewrite corsHeaders_wroteHeader|].
      by eexists. }
  rewrite Hip. by eexists.
Qed.

Lemma serve_logs_resolved server now log0 r ip :
  clientIP r = inl ip ->
  exists st', serve commonHandler server now log0 r = Returned st'
    /\ logs st' = (log0 ++ [accessLine ip r])%list.
Proof.
  intros Hip. unfold serve, commonHandler.
  destruct (chain_logs_resolved (muxServeHTTP serveMux) r
              (mkState server newResponseWriter log0 now) ip
              (serveMux_answers r) eq_refl Hip) as (st' & -> & Hlogs).
  by eexists.
Qed.

(** X5.  When the request carries X-Real-Ip, the access log gains
    exactly one line, made of the first X-Real-Ip value, the method and
    the path; the connection address is not looked at, even if it could
    not be split. *)
Theorem access_log_prefers_real_ip
    (server : Server) (now : string) (log0 : list string) (r : Request)
    (ip : string) (more : list string) :
  ReqHeader r !! "X-Real-Ip" = Some (ip :: more) ->
  exists st', serve commonHandler server now log0 r = Returned st'
    /\ logs st' = (log0 ++ [ip +:+ " " +:+ Method r +:+ " " +:+ Path r])%list.
Proof.
  intros H. apply serve_logs_resolved. unfold clientIP. by rewrite H.
Qed.

(** X6.  Without an X-Real-Ip value, and with a connection address of
    the form host:port or [host]:port, the access log gains exactly one
    line, made of the host (without brackets and port), the method and
    the path. *)
Theorem access_log_uses_peer_host
    (server : Server) (now : string) (log0 : list string) (r : Request)
    (host port : string) :
  default [] (ReqHeader r !! "X-Real-Ip") = [] ->
  plainPart port ->
  (RemoteAddr r = joinPlain host port /\ plainPart host)
  \/ (RemoteAddr r = joinBracketed host port /\ lacks "[" host /\ lacks "]" host) ->
  exists st', serve commonHandler server now log0 r = Returned st'
    /\ logs st' = (log0 ++ [host +:+ " " +:+ Method r +:+ " " +:+ Path r])%list.
Proof.
  intros Hnone Hport Haddr. apply serve_logs_resolved.
  unfold clientIP. rewrite Hnone.
  destruct Haddr as [[-> Hhost]|(-> & H1 & H2)].
  - by rewrite SplitHostPort_plain.
  - by rewrite SplitHostPort_bracket.
Qed.

Lemma access_log_prefers_real_ip_witness :
  exists st',
    serve commonHandler (sampleServer {[ "*" := true ]}) "" ["earlier line"]
      {| Method := "GET"; Path := "/now";
         ReqHeader := {[ "X-Real-Ip" := ["203.0.113.7"; "10.0.0.9"] ]};
         RemoteAddr := "bogus" |} = Returned st'
    /\ logs st' = ["earlier line"; "203.0.113.7 GET /now"].
Proof.
  apply (access_log_prefers_real_ip (sampleServer {[ "*" := true ]}) "" ["earlier line"]
           {| Method := "GET"; Path := "/now";
              ReqHeader := {[ "X-Real-Ip" := ["203.0.113.7"; "10.0.0.9"] ]};
              RemoteAddr := "bogus" |} "203.0.113.7" ["10.0.0.9"]).
  vm_compute. reflexivity.
Defined.

Lemma access_log_uses_peer_host_witness :
  exists st',
    serve commonHandler (sampleServer {[ "*" := true ]}) "" []
      (sampleRequest "GET" "/ping" "" "[::1]:4242") = Returned st'
    /\ logs st' = ["::1 GET /ping"].
Proof.
  apply (access_log_uses_peer_host (sampleServer {[ "*" := true ]}) "" []
           (sampleRequest "GET" "/ping" "" "[::1]:4242") "::1" "4242").
  - vm_compute. reflexivity.
  - by repeat split.
  - right. by repeat split.
Defined.

(** ** Splitting the configuration string *)

Lemma splitComma_cons_inv (s : string) : exists piece pieces, Str.splitComma s = piece :: pieces.
Proof.
  induction s as [|c s (p & ps & IH)]; simpl; [by eexists _, _|].
  destruct (Ascii.eqb c ","); [by eexists _, _|]. rewrite IH. by eexists _, _.
Qed.

Lemma joinComma_cons (piece : string) (rest : list string) :
  rest <> [] -> joinComma (piece :: rest) = piece +:+ "," +:+ joinComma rest.
Proof. by destruct rest. Qed.

Lemma join_split (s : string) : joinComma (Str.splitComma s) = s.
Proof.
  induction s as [|c s IH]; [done|]. simpl.
  destruct (splitComma_cons_inv s) as (p & ps & E).
  destruct (Ascii.eqb_spec c ",") as [->|Hc].
  - rewrite joinComma_cons by (by rewrite E). by rewrite IH.
  - rewrite E in IH |- *. destruct ps as [|p' ps].
    + simpl in *. by rewrite IH.
    + rewrite joinComma_cons in IH |- * by done.
      rewrite append_cons. by rewrite IH.
Qed.

Lemma splitComma_lacks (b : ascii) (s : string) :
  lacks b s -> Forall (lacks b) (Str.splitComma s).
Proof.
  induction s as [|c s IH]; intros H; simpl; [by repeat constructor|].
  pose proof (lacks_head _ _ _ H) as Hc.
  assert (lacks b s) as Hs by (unfold lacks in *; simpl in H; rewrite Hc in H;
                               by destruct (Str.indexByte s b)).
  specialize (IH Hs).
  destruct (Ascii.eqb c ","); [by constructor|].
  destruct (Str.splitComma s) as [|p ps];
    [constructor; [by apply lacks_cons|constructor]|].
  inversion IH; subst. constructor; [by apply lacks_cons|done].
Qed.

Lemma splitComma_pieces (s : string) : Forall (lacks ",") (Str.splitComma s).
Proof.
  induction s as [|c s IH]; simpl; [by repeat constructor|].
  destruct (Ascii.eqb c ",") eqn:Hc; [by constructor|].
  destruct (Str.splitComma s) as [|p ps];
    [constructor; [by apply lacks_cons|constructor]|].
  inversion IH; subst. constructor; [by apply lacks_cons|done].
Qed.

Lemma removeSpaces_lacks (s : string) : lacks " " (Str.removeSpaces s).
Proof.
  induction s as [|c s IH]; simpl; [done|].
  destruct (Ascii.eqb c " ") eqn:Hc; [done|]. by apply lacks_cons.
Qed.

Lemma removeSpaces_id (s : string) : lacks " " s -> Str.removeSpaces s = s.
Proof.
  induction s as [|c s IH]; intros H; simpl; [done|].
  pose proof (lacks_head _ _ _ H) as Hc. rewrite Hc.
  rewrite IH; [done|]. unfold lacks in *. simpl in H. rewrite Hc in H.
  by destruct (Str.indexByte s " ").
Qed.

Lemma lacks_tail b c s : lacks b (String c s) -> lacks b s.
Proof.
  unfold lacks. simpl. destruct (Ascii.eqb c b); [done|].
  by destruct (Str.indexByte s b).
Qed.

Lemma splitComma_lacks_comma (s : string) : lacks "," s -> Str.splitComma s = [s].
Proof.
  induction s as [|c s IH]; intros H; simpl; [done|].
  rewrite (lacks_head _ _ _ H), IH; [done|]. by eapply lacks_tail.
Qed.

Lemma splitComma_app (s t : string) :
  lacks "," s ->
  Str.splitComma (s +:+ "," +:+ t) = s :: Str.splitComma t.
Proof.
  induction s as [|c s IH]; intros H.
  - done.
  - rewrite append_cons. simpl. rewrite (lacks_head _ _ _ H).
    rewrite IH by (by eapply lacks_tail). done.
Qed.

Lemma split_join (pieces : list string) :
  pieces <> [] -> Forall (lacks ",") pieces ->
  Str.splitComma (joinComma pieces) = pieces.
Proof.
  induction pieces as [|p ps IH]; intros Hne Hall; [done|].
  inversion Hall; subst. destruct ps as [|p' ps].
  - simpl. by apply splitComma_lacks_comma.
  - rewrite joinComma_cons by done. rewrite splitComma_app by done.
    by rewrite IH.
Qed.

Lemma lacks_joinComma (b : ascii) (pieces : list string) :
  Ascii.eqb "," b = false ->
  Forall (lacks b) pieces -> lacks b (joinComma pieces).
Proof.
  intros Hb. induction pieces as [|p ps IH]; intros Hall; [done|].
  inversion Hall; subst. destruct ps as [|p' ps]; [done|].
  rewrite joinComma_cons by done.
  apply lacks_append; [done|]. apply lacks_cons; [done|]. by apply IH.
Qed.

(** X9.  The entries [main] takes from the configuration string: there
    is at least one, none holds a space or a comma, and joined with
    commas they give back the string without its spaces. *)
Theorem config_entries_are_clean (cfg : string) :
  corsWhitelistRaw cfg <> []
  /\ Forall entryLike (corsWhitelistRaw cfg)
  /\ joinComma (corsWhitelistRaw cfg) = Str.removeSpaces cfg.
Proof.
  unfold corsWhitelistRaw. split; [|split].
  - destruct (splitComma_cons_inv (Str.removeSpaces cfg)) as (p & ps & ->). done.
  - pose proof (splitComma_lacks " " _ (removeSpaces_lacks cfg)) as H1.
    pose proof (splitComma_pieces (Str.removeSpaces cfg)) as H2.
    rewrite Forall_forall in H1, H2 |- *. intros uri Hin. split; auto.
  - apply join_split.
Qed.

(** X10.  A non-empty list of entries free of spaces and commas, joined
    with commas, is read back by [main] as that very list. *)
Theorem config_round_trip (entries : list string) :
  entries <> [] ->
  Forall entryLike entries ->
  corsWhitelistRaw (joinComma entries) = entries.
Proof.
  intros Hne Hall. unfold corsWhitelistRaw.
  rewrite removeSpaces_id.
  - apply split_join; [done|]. eapply Forall_impl; [done|]. by intros ? [].
  - apply lacks_joinComma; [done|]. eapply Forall_impl; [done|]. by intros ? [].
Qed.

Lemma config_round_trip_witness :
  corsWhitelistRaw (joinComma ["https://a.example"; ""; "*"; "/x"])
  = ["https://a.example"; ""; "*"; "/x"].
Proof.
  apply config_round_trip; [done|].
  repeat constructor.
Defined.

(** ** More on what start-up builds *)

Lemma append_inj_r (s a b : string) : s +:+ a = s +:+ b -> a = b.
Proof.
  induction s as [|c s IH]; [done|]. rewrite !append_cons. intros [= H]. auto.
Qed.

Lemma ignoring_inj (a b : string) : ignoring a = ignoring b -> a = b.
Proof. apply append_inj_r. Qed.

Section MoreStartup.

Context {URL : Type}.
Variable ParseRequestURI : string -> option URL.
Variable URL_String : URL -> string.

Abbreviation newServer' := (newServer ParseRequestURI URL_String).
Abbreviation accepted' := (accepted ParseRequestURI URL_String).

Lemma accepted_same_entries (raw1 raw2 : list string) (k : string) :
  "*" ∉ raw1 -> (forall uri, uri ∈ raw1 <-> uri ∈ raw2) ->
  k ∈ accepted' raw1 <-> k ∈ accepted' raw2.
Proof.
  intros Hstar Hsame.
  assert ("*" ∉ raw2) as Hstar2 by (by rewrite <- Hsame).
  rewrite !elem_of_accepted, !beforeWildcard_all by done.
  split; intros (uri & valid & Hin & Hrest); exists uri, valid;
    (split; [by apply Hsame|done]).
Qed.

(** X11.  Without a wildcard, two configurations with the same entries,
    in whatever order and however often repeated, build the same
    whitelist. *)
Theorem whitelist_ignores_order_and_repeats (f1 f2 : Flags) :
  "*" ∉ corsWhitelistRaw (corsWhitelistF f1) ->
  (forall uri, uri ∈ corsWhitelistRaw (corsWhitelistF f1)
               <-> uri ∈ corsWhitelistRaw (corsWhitelistF f2)) ->
  CORSWhitelist (newServer' f1).1 = CORSWhitelist (newServer' f2).1.
Proof.
  intros Hstar Hsame. apply map_eq. intros k.
  rewrite !newServer_lookup. apply decide_ext.
  rewrite (accepted_same_entries _ _ k Hstar Hsame), <- (Hsame "*").
  done.
Qed.

(** X12.  Without a wildcard no entry is lost silently: an entry that
    parses has its printed form stored (and no warning), an entry that
    does not parse has its warning logged. *)
Theorem every_entry_stored_or_warned (f : Flags) (uri : string) :
  "*" ∉ corsWhitelistRaw (corsWhitelistF f) ->
  uri ∈ corsWhitelistRaw (corsWhitelistF f) ->
  (exists valid, ParseRequestURI uri = Some valid
     /\ CORSWhitelist (newServer' f).1 !! URL_String valid = Some true
     /\ ignoring uri ∉ (newServer' f).2)
  \/ (ParseRequestURI uri = None /\ ignoring uri ∈ (newServer' f).2).
Proof.
  intros Hstar Hin.
  rewrite newServer_out, buildWhitelist_out.
  unfold rejected. rewrite beforeWildcard_all by done.
  destruct (ParseRequestURI uri) as [valid|] eqn:Hp.
  - left. exists valid. split; [done|]. split.
    + rewrite newServer_lookup, decide_True; [done|]. left.
      apply elem_of_accepted. exists uri, valid.
      by rewrite beforeWildcard_all.
    + rewrite list_elem_of_fmap. intros (uri' & Heq & Hin').
      apply list_elem_of_filter in Hin' as [Hnone _].
      assert (uri' = uri) as ->; [|congruence].
      symmetry. by apply ignoring_inj.
  - right. split; [done|]. apply list_elem_of_fmap. exists uri.
    split; [done|]. by apply list_elem_of_filter.
Qed.

(** X13.  In a whitelist built at start-up a key is present exactly when
    its value is true, so the two tests the CORS step uses (value for
    the wildcard, presence for an origin) agree on every key. *)
Theorem whitelist_presence_is_truth (f : Flags) (k : string) :
  is_Some (CORSWhitelist (newServer' f).1 !! k)
  <-> default false (CORSWhitelist (newServer' f).1 !! k) = true.
Proof.
  rewrite newServer_lookup. case_decide; cbn; [by split; eauto|].
  split; [by intros []|done].
Qed.

(** X14.  A configuration that is empty once its spaces are removed
    (net/url refusing the empty string) builds the empty whitelist,
    logs the one warning for the empty entry, and no request is then
    answered with an Access-Control header. *)
Theorem empty_config_allows_no_origin (f : Flags) :
  ParseRequestURI "" = None ->
  Str.removeSpaces (corsWhitelistF f) = "" ->
  CORSWhitelist (newServer' f).1 = ∅
  /\ (newServer' f).2 = [ignoring ""]
  /\ forall now log0 r, exists st',
       serve commonHandler (newServer' f).1 now log0 r = Returned st'
       /\ noCorsHeaders (sent (rw st')).
Proof.
  intros Hempty Hcfg.
  assert (CORSWhitelist (newServer' f).1 = ∅ /\ (newServer' f).2 = [ignoring ""])
    as [Hwl Hout].
  { rewrite newServer_whitelist, newServer_out.
    unfold buildWhitelist, corsWhitelistRaw. rewrite Hcfg. simpl.
    by rewrite Hempty. }
  split; [done|]. split; [done|]. intros now log0 r.
  destruct (serve_commonHandler (newServer' f).1 now log0 r)
    as (st' & Hserve & _ & _ & _ & Hsent).
  exists st'. split; [done|]. eapply noCorsHeaders_sent; [done|].
  rewrite corsHeaders_nonmember; [by intros k _| |left];
    by rewrite Hwl, lookup_empty.
Qed.

End MoreStartup.

Lemma whitelist_ignores_order_and_repeats_witness :
  CORSWhitelist (sampleNewServer (sampleFlags "https://a.example, /x, nope, /x")).1
  = CORSWhitelist (sampleNewServer (sampleFlags "/x,nope,https://a.example")).1.
Proof.
  assert (corsWhitelistRaw (corsWhitelistF (sampleFlags "https://a.example, /x, nope, /x"))
          = ["https://a.example"; "/x"; "nope"; "/x"]) as E1 by (vm_compute; reflexivity).
  assert (corsWhitelistRaw (corsWhitelistF (sampleFlags "/x,nope,https://a.example"))
          = ["/x"; "nope"; "https://a.example"]) as E2 by (vm_compute; reflexivity).
  apply whitelist_ignores_order_and_repeats.
  - rewrite E1, !not_elem_of_cons. repeat split; try done.
    apply not_elem_of_nil.
  - intros uri. rewrite E1, E2, !elem_of_cons, !elem_of_nil. tauto.
Defined.

Lemma every_entry_stored_or_warned_witness :
  (exists valid, SampleURL.ParseRequestURI "/x" = Some valid
     /\ CORSWhitelist (sampleNewServer (sampleFlags "/x, nope")).1
          !! SampleURL.URL_String valid = Some true
     /\ ignoring "/x" ∉ (sampleNewServer (sampleFlags "/x, nope")).2)
  \/ (SampleURL.ParseRequestURI "/x" = None
      /\ ignoring "/x" ∈ (sampleNewServer (sampleFlags "/x, nope")).2).
Proof.
  assert (corsWhitelistRaw (corsWhitelistF (sampleFlags "/x, nope")) = ["/x"; "nope"])
    as E by (vm_compute; reflexivity).
  apply every_entry_stored_or_warned.
  - rewrite E, !not_elem_of_cons. repeat split; try done.
    apply not_elem_of_nil.
  - rewrite E. left.
Defined.

Lemma empty_config_allows_no_origin_witness :
  CORSWhitelist (sampleNewServer (sampleFlags "  ")).1 = ∅
  /\ (sampleNewServer (sampleFlags "  ")).2 = [ignoring ""].
Proof.
  destruct (empty_config_allows_no_origin
              SampleURL.ParseRequestURI SampleURL.URL_String (sampleFlags "  ")
              eq_refl eq_refl) as (H1 & H2 & _).
  by split.
Defined.

(** ** The routes through the whole chain *)


Lemma serve_finish_committed (h : Handler) server now log0 r st' :
  h r (mkState server newResponseWriter log0 now) = Returned st' ->
  wroteHeader (rw st') = true ->
  serve h server now log0 r = Returned st'.
Proof.
  intros H Hw. unfold serve. rewrite H. unfold RW.finish.
  rewrite WriteHeader_committed by done. by destruct st'.
Qed.



(** X17.  An OPTIONS request is answered 200 on every path, registered
    or not, without a Content-Type; when the logger can tell the
    client's address the body is empty and the request is logged. *)
Theorem options_is_answered_on_every_path
    (server : Server) (now : string) (log0 : list string) (r : Request) :
  Method r = "OPTIONS" ->
  exists st', serve commonHandler server now log0 r = Returned st'
    /\ status (rw st') = StatusOK
    /\ sent (rw st') !! "Content-Type" = None
    /\ forall ip, clientIP r = inl ip ->
         body (rw st') = "" /\ logs st' = (log0 ++ [(ip +:+ " " +:+ Method r +:+ " " +:+ Path r)])%list.
Proof.
  intros Hm.
  set (w := RW.WriteHeader (corsHeaders server r newResponseWriter) StatusOK).
  assert (corsMiddleware (muxServeHTTP serveMux) r
            (mkState server newResponseWriter log0 now)
          = Returned (mkState server w log0 now)) as Hcors
    by (by rewrite corsMiddleware_options).
  assert (wroteHeader w = true /\ status w = StatusOK /\ body w = ""
          /\ sent w !! "Content-Type" = None) as (Hw & Hst & Hbody & Hct).
  { unfold w. rewrite WriteHeader_fresh by (by rewrite corsHeaders_wroteHeader).
    cbn. rewrite corsHeaders_body. repeat split.
    rewrite corsHeaders_lookup. cbv zeta.
    destruct (allowedOriginOf server r =? ""); [apply header_new|].
    repeat (case_decide; [done|]). apply header_new. }
  unfold commonHandler, chain.
  destruct (clientIP r) as [ip|splitErr] eqn:Hip.
  - exists (log_Print (mkState server w log0 now)
              (ip +:+ " " +:+ Method r +:+ " " +:+ Path r)).
    split.
    + apply serve_finish_committed; [|done].
      apply panicMiddleware_returned. unfold logMiddleware. by rewrite Hcors, Hip.
    + cbn [rw logs log_Print]. split; [done|]. split; [done|].
      intros ip' [= <-]. by split.
  - exists (withRW (mkState server w log0 now)
              (http_Error w ("Unable to parse client IP: " +:+ RemoteAddr r)
                 StatusBadRequest)).
    destruct (http_Error_sameHead w ("Unable to parse client IP: " +:+ RemoteAddr r)
                StatusBadRequest Hw) as (Hw' & Hst' & Hsent').
    split.
    + apply serve_finish_committed; [|done].
      apply panicMiddleware_returned. unfold logMiddleware. by rewrite Hcors, Hip.
    + cbn [rw withRW]. rewrite Hst', Hsent'. by repeat split.
Qed.



(** ** More on shutdown *)

Lemma shutdownPoll_first_idle active lnerr left t0 t :
  (t <= left)%nat ->
  active (t0 + t)%nat = 0%nat ->
  (forall i, (i < t)%nat -> active (t0 + i)%nat <> 0%nat) ->
  Proc.shutdownPoll active lnerr left t0 = (lnerr, (t0 + t)%nat).
Proof.
  revert t0 t. induction left as [|left IH]; intros t0 t Hle Hidle Hbusy.
  - assert (t = 0)%nat as -> by lia. rewrite Nat.add_0_r in *.
    simpl. by rewrite Hidle.
  - destruct t as [|t].
    + rewrite Nat.add_0_r in *. simpl. by rewrite Hidle.
    + simpl. pose proof (Hbusy 0%nat (Nat.lt_0_succ _)) as H0.
      rewrite Nat.add_0_r in H0. apply Nat.eqb_neq in H0. rewrite H0.
      replace (t0 + S t)%nat with (S t0 + t)%nat in * by lia.
      apply IH; [lia|done|].
      intros i Hi. replace (S t0 + i)%nat with (t0 + S i)%nat by lia.
      apply Hbusy. lia.
Qed.

(** X20.  [Shutdown] returns at the first poll at which no connection
    is active, if that poll is within the deadline, and what it returns
    is the error of closing the listeners. *)
Theorem shutdown_returns_at_first_idle_poll (env : Proc.Env) (t : nat) :
  (t <= Proc.shutdownTimeout * Proc.pollsPerSecond env)%nat ->
  Proc.active env t = 0%nat ->
  (forall i, (i < t)%nat -> Proc.active env i <> 0%nat) ->
  Proc.Shutdown env Proc.shutdownTimeout = (Proc.lnerr env, t).
Proof.
  intros Hle Hidle Hbusy. unfold Proc.Shutdown.
  by rewrite (shutdownPoll_first_idle _ _ _ 0 t Hle Hidle Hbusy).
Qed.

Lemma shutdown_returns_at_first_idle_poll_witness :
  Proc.Shutdown idleEnv Proc.shutdownTimeout = (None, 3%nat).
Proof.
  apply (shutdown_returns_at_first_idle_poll idleEnv 3).
  - simpl. lia.
  - reflexivity.
  - intros i Hi. destruct i as [|[|[|i]]]; simpl; try discriminate. lia.
Defined.




(** ** More on the earlier revision *)

(** X22.  The CORS step of revision 0.0.1 allows the same origin as the
    current one and leaves the writer alone when there is none; when
    there is one, it always adds Access-Control-Allow-Credentials: true,
    "Authorization, Content-Type" and "GET,OPTIONS", the wildcard
    included. *)
Theorem V001_same_origin_always_credentials (next : Handler) (r : Request) (st : State) :
  exists w',
    V001.corsMiddleware next r st =
      (if Method r =? "OPTIONS"
       then Returned (withRW st (RW.WriteHeader w' StatusOK))
       else next r (withRW st w'))
    /\ header w' !! ACAO = header (corsHeaders (srv st) r (rw st)) !! ACAO
    /\ (allowedOriginOf (srv st) r = "" -> w' = rw st)
    /\ (allowedOriginOf (srv st) r <> "" ->
          header w' !! ACAC = Some ["true"]
          /\ header w' !! ACAH = Some ["Authorization, Content-Type"]
          /\ header w' !! ACAM = Some ["GET,OPTIONS"]).
Proof.
  unfold V001.corsMiddleware. cbv zeta.
  eexists. split; [reflexivity|].
  rewrite corsHeaders_lookup. cbv zeta.
  destruct (allowedOriginOf (srv st) r =? "") eqn:Ha; cbn [negb].
  - apply String.eqb_eq in Ha. by repeat split.
  - apply String.eqb_neq in Ha. rewrite !SetHeader_header.
    split; [by repeat (case_decide; simplify_eq)|].
    split; [done|]. intros _. by repeat split.
Qed.

Lemma V001_chain_read_error (readAll : Request -> string + string) (mux : Handler)
    r st err :
  readAll r = inr err ->
  V001_chain readAll mux r st =
  Returned (withRW st (http_Error (rw st) "Unable to read body" StatusBadRequest)).
Proof.
  intros H. unfold V001_chain, panicMiddleware, V001_logMiddleware. by rewrite H.
Qed.

(** X23.  In revision 0.0.1 a request whose body cannot be read is
    answered 400 with the text "Unable to read body", without any
    Access-Control header and without a log line: neither the CORS step
    nor a route has run. *)
Theorem V001_unreadable_body_is_answered_400
    (readAll : Request -> string + string) (mux : Handler)
    (server : Server) (now : string) (log0 : list string) (r : Request)
    (err : string) :
  readAll r = inr err ->
  exists st', serve (V001_chain readAll mux) server now log0 r = Returned st'
    /\ status (rw st') = StatusBadRequest
    /\ body (rw st') = "Unable to read body" +:+ Str.newline
    /\ noCorsHeaders (sent (rw st'))
    /\ logs st' = log0
    /\ srv st' = server.
Proof.
  intros H.
  destruct (http_Error_fresh newResponseWriter "Unable to read body"
              StatusBadRequest eq_refl) as (Hw & Hst & Hsent).
  eexists. split.
  - apply serve_finish_committed; [by eapply V001_chain_read_error|done].
  - cbn [rw withRW logs srv]. split; [done|]. split; [by rewrite http_Error_body|].
    split; [|done]. rewrite Hsent. intros k Hk.
    rewrite !lookup_insert_ne; [apply lookup_empty| |]; by intros <-.
Qed.

Lemma V001_unreadable_body_is_answered_400_witness :
  exists st',
    serve (V001_chain (fun _ => inr "unexpected EOF") (muxServeHTTP serveMux))
      (sampleServer {[ "*" := true ]}) "" []
      (sampleRequest "POST" "/ping" "https://a.example" "10.0.0.1:4242") = Returned st'
    /\ status (rw st') = StatusBadRequest
    /\ noCorsHeaders (sent (rw st')).
Proof.
  destruct (V001_unreadable_body_is_answered_400
              (fun _ => inr "unexpected EOF") (muxServeHTTP serveMux)
              (sampleServer {[ "*" := true ]}) "" []
              (sampleRequest "POST" "/ping" "https://a.example" "10.0.0.1:4242")
              "unexpected EOF" eq_refl) as (st' & H1 & H2 & _ & H4 & _).
  by exists st'.
Defined.

(** X7.  [SplitHostPort] undoes [JoinHostPort]: for a host without
    brackets and a port without colon or bracket it gives back host and
    port, the host without the brackets that a colon in it calls for. *)
Theorem SplitHostPort_undoes_JoinHostPort (host port : string) :
  lacks "[" host -> lacks "]" host -> plainPart port ->
  SplitHostPort (JoinHostPort host port) = inl (host, port).
Proof.
  intros H1 H2 Hport. unfold JoinHostPort.
  destruct (Str.indexByte host ":") eqn:Hc.
  - by apply SplitHostPort_bracket.
  - by apply SplitHostPort_plain.
Qed.

Lemma SplitHostPort_undoes_JoinHostPort_witness :
  SplitHostPort (JoinHostPort "2001:db8::1" "443") = inl ("2001:db8::1", "443")
  /\ SplitHostPort (JoinHostPort "198.51.100.4" "51234") = inl ("198.51.100.4", "51234").
Proof.
  split; apply SplitHostPort_undoes_JoinHostPort; by repeat split.
Defined.





Lemma options_is_answered_on_every_path_witness :
  exists st',
    serve commonHandler (sampleServer {[ "https://a.example" := true ]}) "" []
      (sampleRequest "OPTIONS" "/no/such/route" "https://a.example" "10.0.0.1:4242")
    = Returned st'
    /\ status (rw st') = StatusOK
    /\ body (rw st') = ""
    /\ logs st' = ["10.0.0.1 OPTIONS /no/such/route"].
Proof.
  destruct (options_is_answered_on_every_path
              (sampleServer {[ "https://a.example" := true ]}) "" []
              (sampleRequest "OPTIONS" "/no/such/route" "https://a.example" "10.0.0.1:4242")
              eq_refl) as (st' & H1 & H2 & _ & H4).
  destruct (H4 "10.0.0.1" eq_refl) as [Hb Hl].
  by exists st'.
Defined.


